(** * Chicago public schools: coordinates, school records and catalog queries

    A shallow embedding of [chicago_public_schools_data_preprocessing.py]:
    the classes [Coordinate], [School] and [CPS], with the Python runtime
    they run on (float arithmetic, the [math] module, the builtins [int]
    and [float], exceptions) kept as an interface, [Python], that has two
    families of instances: real numbers behind a rounding operator (exact
    arithmetic is the identity rounding) and IEEE binary64 floats over a
    platform's [libm]. *)

From Stdlib Require Import ZArith Floats Reals Lra Lia Psatz List String Ascii.
From stdpp Require Import base option list gmap strings.
Import ListNotations.

#[local] Set Warnings "-inexact-float".

Local Open Scope Z_scope.

(** ** Exceptions *)

Module Py.

(** The exceptions the program can raise. *)
Inductive exn : Type :=
| ValueError          (* int("x"), float("x"), math domain error *)
| OverflowError       (* math range error *)
| KeyError (key : string)
| StopIteration       (* next() on an exhausted reader *)
| FileNotFoundError.

(** The outcome of a call: a value, or a raised exception. *)
Inductive res (A : Type) : Type :=
| Ok (a : A)
| Raise (e : exn).
Arguments Ok {A} a.
Arguments Raise {A} e.

Definition bind {A B : Type} (c : res A) (k : A -> res B) : res B :=
  match c with
  | Ok a => k a
  | Raise e => Raise e
  end.

(** [int(s)] and [float(s)] raise [ValueError] on malformed text. *)
Definition parsed {A : Type} (o : option A) : res A :=
  match o with
  | Some a => Ok a
  | None => Raise ValueError
  end.

(** [d[k]] raises [KeyError] on an absent key. *)
Definition getitem (d : gmap string string) (k : string) : res string :=
  match d !! k with
  | Some v => Ok v
  | None => Raise (KeyError k)
  end.

(** [dict(pairs)]: later pairs overwrite earlier ones. *)
Definition dict (pairs : list (string * string)) : gmap string string :=
  foldl (fun d kv => <[kv.1 := kv.2]> d) ∅ pairs.

(** [s.split(", ")]: the pieces of [s] between the non-overlapping
    occurrences of the separator, scanned left to right; [cur] is the
    piece being read. *)
Fixpoint split_comma_space (s cur : string) : list string :=
  match s with
  | EmptyString => [cur]
  | String c rest =>
      match rest with
      | String c' rest' =>
          if (Ascii.eqb c "," && Ascii.eqb c' " ")%bool
          then cur :: split_comma_space rest' ""
          else split_comma_space rest (cur +:+ String c "")
      | EmptyString => [cur +:+ String c ""]
      end
  end.

End Py.
Import Py.

#[global] Instance res_ret : MRet res := @Ok.
#[global] Instance res_bind : MBind res := fun A B k c => Py.bind c k.

(** ** The runtime interface

    [F] is the type of Python floats.  The [math] functions and the two
    parsers can raise; arithmetic and comparison cannot: the program
    divides only by the constants [2], [180] and [math.pi], so no
    [ZeroDivisionError] arises and [fdiv] is total. *)

Class Python (F : Type) : Type := {
  py_int : string -> option Z;         (* int(s) *)
  py_float : string -> option F;       (* float(s) *)
  of_int : Z -> F;                     (* an int operand of a float operation *)
  fadd : F -> F -> F;
  fsub : F -> F -> F;
  fmul : F -> F -> F;
  fdiv : F -> F -> F;
  fgt : F -> F -> bool;                (* x > y *)
  fle : F -> F -> bool;                (* x <= y *)
  math_pi : F;
  math_sin : F -> res F;
  math_cos : F -> res F;
  math_asin : F -> res F;
  math_sqrt : F -> res F;
  math_pow : F -> Z -> res F           (* math.pow(x, n), n an int literal *)
}.

(** ** The program *)

Definition EARTH_RADIUS : Z := 3961.

Section Program.

Context {F : Type} {py : Python F}.

(** *** class Coordinate *)

Record Coordinate : Type := mkCoordinate {
  latitude : F;
  longitude : F
}.

Definition degree_to_radian (degree_latitude_or_longitude : F) : F :=
  let radian_latitude_or_longitude :=
    fdiv (fmul degree_latitude_or_longitude math_pi) (of_int 180) in
  radian_latitude_or_longitude.

Definition fromdegrees (latitude longitude : F) : Coordinate :=
  mkCoordinate (degree_to_radian latitude) (degree_to_radian longitude).

Definition distance (self coord : Coordinate) : res F :=
  let latitude_diff := fsub (latitude self) (latitude coord) in
  let longitude_diff := fsub (longitude self) (longitude coord) in
  s1 ← math_sin (fdiv latitude_diff (of_int 2));
  p1 ← math_pow s1 2;
  c1 ← math_cos (latitude self);
  c2 ← math_cos (latitude coord);
  s2 ← math_sin (fdiv longitude_diff (of_int 2));
  p2 ← math_pow s2 2;
  q ← math_sqrt (fadd p1 (fmul (fmul c1 c2) p2));
  a ← math_asin q;
  Ok (fmul (of_int (2 * EARTH_RADIUS)) a).

Definition as_degrees (self : Coordinate) : F * F :=
  let degree_latitude := fdiv (fmul (latitude self) (of_int 180)) math_pi in
  let degree_longitude := fdiv (fmul (longitude self) (of_int 180)) math_pi in
  (degree_latitude, degree_longitude).

(** *** class School *)

Record School : Type := mkSchool {
  id : Z;
  name : string;
  network : string;
  address : string;
  zip : string;
  phone : string;
  grades : list string;
  location : Coordinate
}.

(** [School.__init__]: the fields are read in this order, so the first
    failing one decides the exception. *)
Definition School_init (data : gmap string string) : res School :=
  v_id ← getitem data "School_ID";
  id ← parsed (py_int v_id);
  name ← getitem data "Short_Name";
  network ← getitem data "Network";
  address ← getitem data "Address";
  zip ← getitem data "Zip";
  phone ← getitem data "Phone";
  v_grades ← getitem data "Grades";
  let grades := split_comma_space v_grades "" in
  v_lat ← getitem data "Lat";
  lat ← parsed (py_float v_lat);
  v_long ← getitem data "Long";
  long ← parsed (py_float v_long);
  Ok (mkSchool id name network address zip phone grades (fromdegrees lat long)).

Definition School_distance (self : School) (coord : Coordinate) : res F :=
  let latitude_diff := fsub (latitude (location self)) (latitude coord) in
  let longitude_diff := fsub (longitude (location self)) (longitude coord) in
  s1 ← math_sin (fdiv latitude_diff (of_int 2));
  p1 ← math_pow s1 2;
  c1 ← math_cos (latitude (location self));
  c2 ← math_cos (latitude coord);
  s2 ← math_sin (fdiv longitude_diff (of_int 2));
  p2 ← math_pow s2 2;
  q ← math_sqrt (fadd p1 (fmul (fmul c1 c2) p2));
  a ← math_asin q;
  Ok (fmul (of_int (2 * EARTH_RADIUS)) a).

Definition full_address (self : School) : string :=
  address self +:+ " " +:+ String "010" "Chicago, IL "
  +:+ String "010" (zip self).

(** *** class CPS *)

Record CPS : Type := mkCPS {
  schools : list School
}.

(** The file system as the constructor sees it: a file name gives the
    rows [csv.reader] yields for that file, if the file exists. *)
Definition files : Type := string -> option (list (list string)).

(** The [for line in csv_reader] loop; [schools] is [self.schools]. *)
Fixpoint CPS_init_loop (header : list string) (lines : list (list string))
    (schools : list School) : res (list School) :=
  match lines with
  | [] => Ok schools
  | line :: lines' =>
      let content := line in
      let single_school_dict := dict (zip_with pair header content) in
      current_school ← School_init single_school_dict;
      CPS_init_loop header lines' (schools ++ [current_school])
  end.

(** The body of the [with] block, over the rows of the opened file. *)
Definition CPS_init_rows (rows : list (list string)) : res CPS :=
  match rows with
  | [] => Raise StopIteration
  | header :: lines =>
      schools ← CPS_init_loop header lines [];
      Ok (mkCPS schools)
  end.

Definition CPS_init (fs : files) (filename : string) : res CPS :=
  match fs "schools.csv" with
  | None => Raise FileNotFoundError
  | Some rows => CPS_init_rows rows
  end.

Fixpoint nearby_schools_loop (coord : Coordinate) (radius : F)
    (todo : list School) (nearby_schools : list School) : res (list School) :=
  match todo with
  | [] => Ok nearby_schools
  | school :: todo' =>
      current_distance ← distance coord (location school);
      if fgt current_distance radius
      then nearby_schools_loop coord radius todo' nearby_schools
      else nearby_schools_loop coord radius todo' (nearby_schools ++ [school])
  end.

(** [radius] defaults to [1.0] in the source; here it is always given. *)
Definition nearby_schools (self : CPS) (coord : Coordinate) (radius : F)
    : res (list School) :=
  nearby_schools_loop coord radius (schools self) [].

(** [set(a).issubset(set(b))] on lists of strings. *)
Definition issubset (a b : list string) : bool :=
  bool_decide ((list_to_set a : gset string) ⊆ list_to_set b).

Fixpoint get_schools_by_grade_loop (input_grades : list string)
    (todo : list School) (schools_by_grade : list School) : list School :=
  match todo with
  | [] => schools_by_grade
  | school :: todo' =>
      if negb (issubset input_grades (grades school))
      then get_schools_by_grade_loop input_grades todo' schools_by_grade
      else get_schools_by_grade_loop input_grades todo'
             (schools_by_grade ++ [school])
  end.

Definition get_schools_by_grade (self : CPS) (grades : list string)
    : list School :=
  let input_grades := foldl (fun acc grade => acc ++ [grade]) [] grades in
  get_schools_by_grade_loop input_grades (schools self) [].

Fixpoint get_schools_by_network_loop (network0 : string)
    (todo : list School) (schools_by_network : list School) : list School :=
  match todo with
  | [] => schools_by_network
  | school :: todo' =>
      if negb (String.eqb (network school) network0)
      then get_schools_by_network_loop network0 todo' schools_by_network
      else get_schools_by_network_loop network0 todo'
             (schools_by_network ++ [school])
  end.

Definition get_schools_by_network (self : CPS) (network : string)
    : list School :=
  get_schools_by_network_loop network (schools self) [].

End Program.

Arguments Coordinate F : clear implicits.
Arguments School F : clear implicits.
Arguments CPS F : clear implicits.

(** ** Reading numbers from text

    The decimal forms of Python's [int(s)] and [float(s)]: surrounding
    white space, a sign, digits, and for floats a fraction, an exponent, and
    the words [nan], [inf] and [infinity] in any case.  Digit grouping with
    underscores, and digits and white space outside ASCII, which Python
    also reads, are not covered: the instances below are only run on text
    inside this fragment, and no theorem about an arbitrary runtime
    depends on it. *)

Module Text.

Definition is_space (c : ascii) : bool :=
  let n := N_of_ascii c in ((9 <=? n) && (n <=? 13) || (n =? 32))%N.

Definition digit (c : ascii) : option Z :=
  let n := N_of_ascii c in
  if ((48 <=? n) && (n <=? 57))%N then Some (Z.of_N n - 48) else None.

Definition lower (c : ascii) : ascii :=
  let n := N_of_ascii c in
  if ((65 <=? n) && (n <=? 90))%N then ascii_of_N (n + 32) else c.

Fixpoint lstrip (s : list ascii) : list ascii :=
  match s with
  | c :: s' => if is_space c then lstrip s' else s
  | [] => []
  end.

Definition strip (s : string) : list ascii :=
  rev (lstrip (rev (lstrip (list_ascii_of_string s)))).

(** The longest prefix of digits: its value after [acc], how many digits
    were read, and the rest. *)
Fixpoint digits (s : list ascii) (acc : Z) (n : nat) : Z * nat * list ascii :=
  match s with
  | c :: s' =>
      match digit c with
      | Some d => digits s' (10 * acc + d) (S n)
      | None => (acc, n, s)
      end
  | [] => (acc, n, [])
  end.

Definition sign (s : list ascii) : bool * list ascii :=
  match s with
  | c :: s' =>
      if Ascii.eqb c "-" then (true, s')
      else if Ascii.eqb c "+" then (false, s')
      else (false, s)
  | [] => (false, [])
  end.

Definition int (s : string) : option Z :=
  let '(neg, s1) := sign (strip s) in
  match digits s1 0 0 with
  | (v, S _, []) => Some (if neg then - v else v)
  | _ => None
  end.

(** What a float literal denotes. *)
Inductive number : Type :=
| Nan
| Inf (neg : bool)
| Dec (neg : bool) (m : Z) (e : Z).   (* (-1)^neg * m * 10^e *)

Definition exponent (s : list ascii) : option Z :=
  match s with
  | [] => Some 0
  | c :: s' =>
      if Ascii.eqb (lower c) "e" then
        let '(neg, s1) := sign s' in
        match digits s1 0 0 with
        | (v, S _, []) => Some (if neg then - v else v)
        | _ => None
        end
      else None
  end.

Definition float (s : string) : option number :=
  let '(neg, s1) := sign (strip s) in
  let word := string_of_list_ascii (map lower s1) in
  if String.eqb word "nan" then Some Nan
  else if (String.eqb word "inf" || String.eqb word "infinity")%bool
  then Some (Inf neg)
  else
    let '(i, ni, s2) := digits s1 0 0 in
    let '(m, nf, s3) :=
      match s2 with
      | c :: s2' =>
          if Ascii.eqb c "." then
            let '(m, nf, s3) := digits s2' i 0 in (m, nf, s3)
          else (i, 0%nat, s2)
      | [] => (i, 0%nat, [])
      end in
    match (ni + nf)%nat with
    | O => None
    | S _ => e ← exponent s3; Some (Dec neg m (e - Z.of_nat nf))
    end.

End Text.

(** ** Real numbers behind a rounding operator

    Every float operation is the exact operation on reals followed by
    [rnd]; [pi_f] is the constant [math.pi].  With [rnd] the identity and
    [pi_f] the number pi this is exact real arithmetic. *)

Module Ideal.

Local Open Scope R_scope.

Definition number_value (x : Text.number) : option R :=
  match x with
  | Text.Dec neg m e =>
      let v := if (0 <=? e)%Z then IZR (m * 10 ^ e)
               else IZR m / IZR (10 ^ (- e)) in
      Some (if neg then - v else v)
  | _ => None     (* no real number is nan or inf *)
  end.

Section Rounded.

Variable rnd : R -> R.
Variable pi_f : R.

Definition gt (x y : R) : bool := if Rgt_dec x y then true else false.
Definition le (x y : R) : bool := if Rle_dec x y then true else false.

Definition sqrt (x : R) : res R :=
  if Rlt_dec x 0 then Raise ValueError else Ok (rnd (R_sqrt.sqrt x)).

Definition asin (x : R) : res R :=
  if Rle_dec (-1) x
  then if Rle_dec x 1 then Ok (rnd (Ratan.asin x)) else Raise ValueError
  else Raise ValueError.

Definition pow (x : R) (n : Z) : res R :=
  if (n <? 0)%Z
  then if Req_dec_T x 0 then Raise ValueError else Ok (rnd (powerRZ x n))
  else Ok (rnd (powerRZ x n)).

Definition python : Python R := {|
  py_int := Text.int;
  py_float := fun s => x ← Text.float s; number_value x;
  of_int := IZR;
  fadd := fun x y => rnd (x + y);
  fsub := fun x y => rnd (x - y);
  fmul := fun x y => rnd (x * y);
  fdiv := fun x y => rnd (x / y);
  fgt := gt;
  fle := le;
  math_pi := pi_f;
  math_sin := fun x => Ok (rnd (sin x));
  math_cos := fun x => Ok (rnd (cos x));
  math_asin := asin;
  math_sqrt := sqrt;
  math_pow := pow
|}.

End Rounded.

(** Exact real arithmetic. *)
Definition exact : Python R := python (fun x => x) PI.

#[global] Instance Rle_decision (x y : R) : Decision (x <= y) := Rle_dec x y.

End Ideal.

(** ** IEEE binary64 floats

    Arithmetic and comparison are the machine's; [math.sqrt] is the
    correctly rounded square root behind Python's domain check.  The
    remaining [math] functions differ between platforms in their last
    bits, so a platform supplies them, together with its text readers. *)

Module Binary64.

Import PrimFloat.
Local Open Scope float_scope.

Record Platform : Type := {
  plat_int : string -> option Z;
  plat_float : string -> option float;
  plat_sin : float -> res float;
  plat_cos : float -> res float;
  plat_asin : float -> res float;
  plat_pow : float -> Z -> res float
}.

(** An int operand converted to the nearest float. *)
Definition of_Z (z : Z) : float :=
  SF2Prim (binary_normalize prec emax z 0 false).

(** [math.pi], the float nearest to pi. *)
Definition pi : float := 0x1.921fb54442d18p+1.

Definition sqrt (x : float) : res float :=
  if x <? 0 then Raise ValueError else Ok (PrimFloat.sqrt x).

Definition python (p : Platform) : Python float := {|
  py_int := plat_int p;
  py_float := plat_float p;
  of_int := of_Z;
  fadd := PrimFloat.add;
  fsub := PrimFloat.sub;
  fmul := PrimFloat.mul;
  fdiv := PrimFloat.div;
  fgt := fun x y => y <? x;
  fle := fun x y => x <=? y;
  math_pi := pi;
  math_sin := plat_sin p;
  math_cos := plat_cos p;
  math_asin := plat_asin p;
  math_sqrt := sqrt;
  math_pow := plat_pow p
|}.

(** *** A portable platform

    Text is read with one rounding; sine and cosine reduce their
    argument by multiples of 2 pi and sum the Taylor series; the arc sine
    sums its series on [[-1/2, 1/2]] and reflects the rest of [[-1, 1]]
    onto it. *)

Definition number_value (x : Text.number) : float :=
  match x with
  | Text.Nan => nan
  | Text.Inf neg => if neg then neg_infinity else infinity
  | Text.Dec neg m e =>
      let num := if (0 <=? e)%Z then (m * 10 ^ e)%Z else m in
      let den := if (0 <=? e)%Z then 1%Z else (10 ^ (- e))%Z in
      match num with
      | Z0 => if neg then neg_zero else zero
      | Zpos n | Zneg n =>
          SF2Prim (SFdiv prec emax (S754_finite neg n 0)
                                   (S754_finite false (Z.to_pos den) 0))
      end
  end.

(** [1 - x2/(a(a+1)) * (1 - x2/((a+2)(a+3)) * ...)], [n] factors deep. *)
Fixpoint taylor (x2 : float) (a : Z) (n : nat) : float :=
  match n with
  | O => 1
  | S n' => 1 - x2 / of_Z (a * (a + 1)) * taylor x2 (a + 2) n'
  end.

Definition reduce (x : float) : float :=
  let two_pi := 2 * pi in
  let big := 0x1.8p+52 in
  let n := (x / two_pi + big) - big in
  x - n * two_pi.

Definition sin (x : float) : res float :=
  if is_nan x then Ok x
  else if is_infinity x then Raise ValueError
  else let r := reduce x in Ok (r * taylor (r * r) 2 24).

Definition cos (x : float) : res float :=
  if is_nan x then Ok x
  else if is_infinity x then Raise ValueError
  else let r := reduce x in Ok (taylor (r * r) 1 24).

(** [x + 1/2 x^3/3 + (1*3)/(2*4) x^5/5 + ...]: [c] is the coefficient
    and [p] the power of [x] of the term being added. *)
Fixpoint asin_series (x2 c p : float) (k : Z) (n : nat) : float :=
  match n with
  | O => 0
  | S n' =>
      c * p / of_Z (2 * k + 1)
      + asin_series x2 (c * of_Z (2 * k + 1) / of_Z (2 * k + 2)) (p * x2)
          (k + 1) n'
  end.

Definition asin (x : float) : res float :=
  if is_nan x then Ok x
  else if 1 <? abs x then Raise ValueError
  else if abs x <=? 0.5 then Ok (asin_series (x * x) 1 x 0 40)
  else
    let y := PrimFloat.sqrt ((1 - abs x) / 2) in
    let r := pi / 2 - 2 * asin_series (y * y) 1 y 0 40 in
    Ok (if x <? 0 then - r else r).

Fixpoint pow_nat (x : float) (n : nat) : float :=
  match n with
  | O => 1
  | S O => x
  | S n' => x * pow_nat x n'
  end.

Definition pow (x : float) (n : Z) : res float :=
  let r := if (n <? 0)%Z then 1 / pow_nat x (Z.to_nat (- n))
           else pow_nat x (Z.to_nat n) in
  if (is_zero x && (n <? 0)%Z)%bool then Raise ValueError
  else if (is_infinity r && is_finite x)%bool then Raise OverflowError
  else Ok r.

Definition portable : Platform := {|
  plat_int := Text.int;
  plat_float := fun s => number_value <$> Text.float s;
  plat_sin := sin;
  plat_cos := cos;
  plat_asin := asin;
  plat_pow := pow
|}.

End Binary64.

(** * The vocabulary of the claims *)

Section Vocabulary.

Context {F : Type} {py : Python F}.

Implicit Types (school : School F) (coord : Coordinate F).

(** Whether [school] is kept by [nearby_schools]: its distance from
    [coord] is computed and is not greater than [radius]. *)
Definition not_beyond coord (radius : F) school : bool :=
  match distance coord (location school) with
  | Ok d => negb (fgt d radius)
  | Raise _ => false
  end.

(** Whether [school] lies within [radius] of [coord]: its distance is
    computed and is at most [radius]. *)
Definition within coord (radius : F) school : bool :=
  match distance coord (location school) with
  | Ok d => fle d radius
  | Raise _ => false
  end.

(** The exception of the first record whose distance fails, if any. *)
Fixpoint first_failure coord (todo : list (School F)) : option exn :=
  match todo with
  | [] => None
  | school :: todo' =>
      match distance coord (location school) with
      | Ok _ => first_failure coord todo'
      | Raise e => Some e
      end
  end.

(** The columns [School.__init__] reads. *)
Definition required : list string :=
  ["School_ID"; "Short_Name"; "Network"; "Address"; "Zip"; "Phone";
   "Grades"; "Lat"; "Long"].

(** The dict the constructor builds for a line. *)
Definition row (header line : list string) : gmap string string :=
  dict (zip_with pair header line).

(** The row has every column. *)
Definition complete (data : gmap string string) : Prop :=
  Forall (λ k, is_Some (data !! k)) required.

(** The row's identifier, latitude or longitude does not parse. *)
Definition unparseable (data : gmap string string) : Prop :=
  (∃ v, data !! "School_ID" = Some v ∧ py_int v = None)
  ∨ (∃ v, data !! "Lat" = Some v ∧ py_float v = None)
  ∨ (∃ v, data !! "Long" = Some v ∧ py_float v = None).

(** The row has each of [columns]. *)
Definition present (data : gmap string string) (columns : list string)
    : Prop :=
  Forall (λ k, is_Some (data !! k)) columns.

(** Reading the row in the order of [School.__init__], a number that
    does not parse is met before any missing column. *)
Definition parse_fails_first (data : gmap string string) : Prop :=
  (∃ v, data !! "School_ID" = Some v ∧ py_int v = None)
  ∨ (present data ["School_ID"; "Short_Name"; "Network"; "Address"; "Zip";
                   "Phone"; "Grades"]
     ∧ ∃ v, data !! "Lat" = Some v ∧ py_float v = None)
  ∨ (present data ["School_ID"; "Short_Name"; "Network"; "Address"; "Zip";
                   "Phone"; "Grades"; "Lat"]
     ∧ ∃ v, data !! "Long" = Some v ∧ py_float v = None).

(** The row builds a school. *)
Definition builds (data : gmap string string) : Prop :=
  ∃ school, School_init data = Ok school.

End Vocabulary.

(** ** Ordering of floats

    What [nearby_schools] needs of the comparisons: raising the radius
    never turns "not greater" into "greater", and what is at most the
    radius is not greater than it. *)

Class FloatOrder (F : Type) {py : Python F} : Prop := {
  fgt_fle_trans : ∀ d r1 r2 : F,
    fle r1 r2 = true → fgt d r2 = true → fgt d r1 = true;
  fle_not_fgt : ∀ d r : F, fle d r = true → fgt d r = false
}.

(** [d] and [r] are comparable when [d > r] is the negation of [d <= r]. *)
Definition comparable {F : Type} {py : Python F} (d r : F) : Prop :=
  fgt d r = negb (fle d r).

(** ** The haversine expression, on real numbers *)

Module Haversine.

Local Open Scope R_scope.

(** The argument of the square root in [Coordinate.distance]. *)
Definition hav (a b : Coordinate R) : R :=
  (sin ((latitude a - latitude b) / 2))²
  + cos (latitude a) * cos (latitude b)
    * (sin ((longitude a - longitude b) / 2))².

(** The haversine expression, as the specification writes it. *)
Definition haversine (a b : Coordinate R) : R :=
  let dlat := latitude a - latitude b in
  let dlon := longitude a - longitude b in
  2 * 3961 * asin (sqrt ((sin (dlat / 2))²
                         + cos (latitude a) * cos (latitude b)
                           * (sin (dlon / 2))²)).

End Haversine.

(** ** Degrees to radians and back, with rounding

    The standard model of binary64 arithmetic: below the overflow
    threshold an operation returns its exact result with a relative error
    of at most [2^-53], or an absolute error of at most [2^-1075] when the
    result is subnormal. *)

Module Rounding.

Local Open Scope R_scope.

Definition unit_roundoff : R := / 2 ^ 53.
Definition underflow : R := / 2 ^ 1075.

Definition standard_model (rnd : R -> R) : Prop :=
  ∀ x, Rabs x <= 2 ^ 1023 →
       Rabs (rnd x - x) <= unit_roundoff * Rabs x + underflow.

(** The tolerance of the round trip. *)
Definition tolerance : R := / 10 ^ 9.

(** [math.pi] as a real number: the float [0x1.921fb54442d18p+1]. *)
Definition pi64 : R := 884279719003555 / 281474976710656.

End Rounding.

(** ** A two-school catalog on the portable binary64 platform *)

Module Sample.

Definition py : Python float := Binary64.python Binary64.portable.

Definition header : list string :=
  ["School_ID"; "Short_Name"; "Network"; "Address"; "Zip"; "Phone";
   "Grades"; "Lat"; "Long"].

Definition row1 : list string :=
  ["1"; "A"; "N1"; "1 W Main St"; "60601"; "555-0001"; "K, 1, 2";
   "41.8800"; "-87.6300"].

Definition row2 : list string :=
  ["2"; "B"; "N2"; "2 W Main St"; "60602"; "555-0002"; "9, 10";
   "41.8781"; "-87.6298"].

Definition school1 : School float :=
  mkSchool 1 "A" "N1" "1 W Main St" "60601" "555-0001" ["K"; "1"; "2"]
    (@fromdegrees _ py 41.88%float (-87.63)%float).

Definition school2 : School float :=
  mkSchool 2 "B" "N2" "2 W Main St" "60602" "555-0002" ["9"; "10"]
    (@fromdegrees _ py 41.8781%float (-87.6298)%float).

Definition cps : CPS float := mkCPS [school1; school2].

Definition point : Coordinate float :=
  @fromdegrees _ py 41.8781%float (-87.6298)%float.

(** A row whose latitude does not parse. *)
Definition bad_row : list string :=
  ["4"; "D"; "N4"; "4 W Main St"; "60604"; "555-0004"; "3, 4"; "abc";
   "-87.6298"].

End Sample.

(** ** Vocabulary for strings and outcomes *)

Module Str.

(** [sep.join(pieces)]. *)
Fixpoint join (sep : string) (pieces : list string) : string :=
  match pieces with
  | [] => ""
  | p :: rest =>
      match rest with
      | [] => p
      | _ :: _ => p +:+ sep +:+ join sep rest
      end
  end.

(** [", " in s]. *)
Fixpoint has_comma_space (s : string) : bool :=
  match s with
  | EmptyString => false
  | String c rest =>
      match rest with
      | EmptyString => false
      | String c' _ =>
          (Ascii.eqb c "," && Ascii.eqb c' " ") || has_comma_space rest
      end
  end.

(** [s.endswith(",")]. *)
Fixpoint ends_with_comma (s : string) : bool :=
  match s with
  | EmptyString => false
  | String c rest =>
      match rest with
      | EmptyString => Ascii.eqb c ","
      | String _ _ => ends_with_comma rest
      end
  end.

(** [s.startswith(" ")]. *)
Definition starts_with_space (s : string) : bool :=
  match s with
  | EmptyString => false
  | String c _ => Ascii.eqb c " "
  end.

(** The line feed is in [s]. *)
Fixpoint has_newline (s : string) : bool :=
  match s with
  | EmptyString => false
  | String c rest => Ascii.eqb c "010" || has_newline rest
  end.

(** What the scan of [split] keeps true of the piece [cur] being read
    before the text [s]: it holds no separator, and does not end in a
    comma that the next character would complete to one. *)
Definition scanning (cur s : string) : Prop :=
  has_comma_space cur = false
  ∧ ends_with_comma cur && starts_with_space s = false.

End Str.

(** The call returned a value. *)
Definition is_Ok {A : Type} (r : res A) : Prop := ∃ a, r = Ok a.

(** ** Case analysis on the comparison of two floats *)

Ltac sf_cases :=
  repeat match goal with
         | |- context [Z.compare ?a ?b] => destruct (Z.compare_spec a b)
         | |- context [Pos.compare_cont Eq ?a ?b] =>
             change (Pos.compare_cont Eq a b) with (Pos.compare a b);
             destruct (Pos.compare_spec a b)
         end;
  simpl; try done; try lia.

(** * Properties *)

(** ** The catalog queries are filters

    Each query loop appends the matching records to its accumulator, in
    the order of [self.schools]. *)

Section Queries.

Context {F : Type} {py : Python F}.

Implicit Types (self : CPS F) (s school : School F) (coord : Coordinate F).

Lemma get_schools_by_network_loop_filter (n : string) todo acc :
  get_schools_by_network_loop n todo acc
  = acc ++ filter (λ s, network s = n) todo.
Proof.
  revert acc. induction todo as [|s todo IH]; intros acc; simpl.
  - by rewrite app_nil_r.
  - rewrite filter_cons. destruct (String.eqb_spec (network s) n) as [Heq|Hne].
    + simpl. rewrite IH, decide_True by done. by rewrite <- app_assoc.
    + simpl. by rewrite IH, decide_False.
Qed.

Lemma issubset_Forall (a b : list string) :
  issubset a b = true ↔ Forall (λ g, g ∈ b) a.
Proof.
  unfold issubset. rewrite bool_decide_eq_true, Forall_forall. set_solver.
Qed.

Lemma input_grades_copy (grades acc : list string) :
  foldl (λ acc grade, acc ++ [grade]) acc grades = acc ++ grades.
Proof.
  revert acc. induction grades as [|g grades IH]; intros acc; simpl.
  - by rewrite app_nil_r.
  - by rewrite IH, <- app_assoc.
Qed.

Lemma get_schools_by_grade_loop_filter (G : list string) todo acc :
  get_schools_by_grade_loop G todo acc
  = acc ++ filter (λ s, Forall (λ g, g ∈ grades s) G) todo.
Proof.
  revert acc. induction todo as [|s todo IH]; intros acc; simpl.
  - by rewrite app_nil_r.
  - rewrite filter_cons. destruct (issubset G (grades s)) eqn:Hsub; simpl.
    + apply issubset_Forall in Hsub.
      rewrite IH, decide_True by done. by rewrite <- app_assoc.
    + rewrite IH, decide_False; [done|].
      intros Hall. apply issubset_Forall in Hall. congruence.
Qed.

Lemma nearby_schools_loop_filter coord radius todo acc :
  nearby_schools_loop coord radius todo acc
  = match first_failure coord todo with
    | Some e => Raise e
    | None => Ok (acc ++ filter (λ s, not_beyond coord radius s) todo)
    end.
Proof.
  revert acc. induction todo as [|s todo IH]; intros acc; simpl.
  - by rewrite app_nil_r.
  - rewrite filter_cons.
    assert (Hkeep : not_beyond coord radius s
                    = match distance coord (location s) with
                      | Ok d => negb (fgt d radius)
                      | Raise _ => false
                      end) by reflexivity.
    destruct (distance coord (location s)) as [d|e]; simpl; [|done].
    destruct (fgt d radius); simpl in *; rewrite IH;
      destruct (first_failure coord todo); try done.
    + rewrite decide_False; [done|]. rewrite Hkeep. by intros [].
    + rewrite decide_True by (by apply Is_true_true). by rewrite <- app_assoc.
Qed.

Lemma first_failure_None coord todo :
  first_failure coord todo = None
  ↔ ∀ s, s ∈ todo → ∃ d, distance coord (location s) = Ok d.
Proof.
  induction todo as [|s todo IH]; simpl.
  - split; [intros _ s' Hs'; by apply elem_of_nil in Hs'|done].
  - destruct (distance coord (location s)) as [d|e] eqn:Hd.
    + rewrite IH. split.
      * intros Hall s' [->|Hin]%elem_of_cons; eauto.
      * intros Hall s' Hin. apply Hall. by right.
    + split; [done|]. intros Hall.
      destruct (Hall s) as [d' Hd']; [by left|congruence].
Qed.

End Queries.

Module IdealOrder.

Local Open Scope R_scope.

Lemma comparable_all rnd pi_f (d r : R) :
  @comparable R (Ideal.python rnd pi_f) d r.
Proof.
  unfold comparable; simpl. unfold Ideal.gt, Ideal.le.
  destruct (Rgt_dec d r), (Rle_dec d r); simpl; try done; lra.
Qed.

Lemma ideal_order rnd pi_f : @FloatOrder R (Ideal.python rnd pi_f).
Proof.
  split.
  - intros d r1 r2; simpl. unfold Ideal.gt, Ideal.le.
    destruct (Rle_dec r1 r2), (Rgt_dec d r2), (Rgt_dec d r1); try done; lra.
  - intros d r; simpl. unfold Ideal.gt, Ideal.le.
    destruct (Rle_dec d r), (Rgt_dec d r); try done; lra.
Qed.

#[global] Existing Instance ideal_order.

End IdealOrder.

Module Binary64Order.

Import PrimFloat.

Lemma SFleb_SFltb_trans (a b c : spec_float) :
  SFleb a b = true → SFltb b c = true → SFltb a c = true.
Proof.
  unfold SFleb, SFltb.
  destruct a as [[]| []| |[] ma ea], b as [[]| []| |[] mb eb],
           c as [[]| []| |[] mc ec]; simpl; try done; sf_cases.
Qed.

Lemma SFltb_negb_SFleb (a b : spec_float) :
  a ≠ S754_nan → b ≠ S754_nan → SFltb b a = negb (SFleb a b).
Proof.
  unfold SFleb, SFltb. intros Ha Hb.
  destruct a as [[]| []| |[] ma ea], b as [[]| []| |[] mb eb];
    simpl; try done; sf_cases.
Qed.

Lemma SFleb_not_SFltb (a b : spec_float) :
  SFleb a b = true → SFltb b a = false.
Proof.
  unfold SFleb, SFltb.
  destruct a as [[]| []| |[] ma ea], b as [[]| []| |[] mb eb];
    simpl; try done; sf_cases.
Qed.

Lemma is_nan_false (x : float) : is_nan x = false → Prim2SF x ≠ S754_nan.
Proof.
  unfold is_nan. rewrite FloatAxioms.eqb_spec. intros Hx Hnan.
  by rewrite Hnan in Hx.
Qed.

Lemma comparable_not_nan p (d r : float) :
  is_nan d = false → is_nan r = false →
  @comparable float (Binary64.python p) d r.
Proof.
  intros Hd Hr. unfold comparable; simpl.
  rewrite FloatAxioms.ltb_spec, FloatAxioms.leb_spec.
  apply SFltb_negb_SFleb; by apply is_nan_false.
Qed.

(** Nothing is greater than NaN, and nothing is at most NaN. *)
Lemma nan_radius p (d : float) :
  @fgt float (Binary64.python p) d nan = false
  ∧ @fle float (Binary64.python p) d nan = false.
Proof.
  simpl. rewrite FloatAxioms.ltb_spec, FloatAxioms.leb_spec.
  unfold SFltb, SFleb.
  change (Prim2SF nan) with S754_nan. by destruct (Prim2SF d).
Qed.

(** With the radius NaN the query returns the whole catalog, whatever the
    platform computes for the distances. *)
Lemma nearby_schools_nan p (self : CPS float) (coord : Coordinate float) :
  nearby_schools (py := Binary64.python p) self coord nan
  = match first_failure (py := Binary64.python p) coord (schools self) with
    | Some e => Raise e
    | None => Ok (schools self)
    end.
Proof.
  unfold nearby_schools. rewrite nearby_schools_loop_filter.
  destruct (first_failure _ _) eqn:Hfail; [done|]. simpl. f_equal.
  pose proof (proj1 (first_failure_None _ _) Hfail) as Hok. clear Hfail.
  induction (schools self) as [|s l IH]; [done|].
  rewrite filter_cons_True, IH; [done| |].
  - intros s' Hs'. apply Hok. by right.
  - destruct (Hok s) as [d Hd]; [by left|].
    unfold not_beyond. rewrite Hd.
    by destruct (nan_radius p d) as [-> _].
Qed.

Lemma binary64_order p : @FloatOrder float (Binary64.python p).
Proof.
  split.
  - intros d r1 r2; simpl.
    rewrite FloatAxioms.leb_spec, !FloatAxioms.ltb_spec.
    apply SFleb_SFltb_trans.
  - intros d r; simpl. rewrite FloatAxioms.leb_spec, FloatAxioms.ltb_spec.
    apply SFleb_not_SFltb.
Qed.

#[global] Existing Instance binary64_order.

End Binary64Order.

(** ** Claims about the queries *)

Section QueryClaims.

Context {F : Type} {py : Python F}.

Implicit Types (self : CPS F) (s school : School F) (coord : Coordinate F).

Lemma filter_ext_in {A : Type} (P Q : A → Prop)
    `{!∀ x, Decision (P x)} `{!∀ x, Decision (Q x)} (l : list A) :
  (∀ x, x ∈ l → (P x ↔ Q x)) → filter P l = filter Q l.
Proof.
  induction l as [|x l IH]; intros Hext; [done|].
  rewrite !filter_cons, IH by (intros y Hy; apply Hext; by right).
  destruct (decide (P x)) as [HP|HP], (decide (Q x)) as [HQ|HQ];
    try done; exfalso; apply (Hext x) in HP || apply (Hext x) in HQ;
    done || by left.
Qed.

Lemma filter_none {A : Type} (P : A → Prop) `{!∀ x, Decision (P x)}
    (l : list A) :
  (∀ x, x ∈ l → ¬ P x) → filter P l = [].
Proof.
  induction l as [|x l IH]; intros Hnone; [done|].
  rewrite filter_cons, decide_False by (apply Hnone; by left).
  apply IH. intros y Hy. apply Hnone. by right.
Qed.

Lemma filter_sublist_mono {A : Type} (P Q : A → Prop)
    `{!∀ x, Decision (P x)} `{!∀ x, Decision (Q x)} (l : list A) :
  (∀ x, P x → Q x) → filter P l `sublist_of` filter Q l.
Proof.
  intros Himp. induction l as [|x l IH]; [done|].
  rewrite !filter_cons.
  destruct (decide (P x)) as [HP|HP], (decide (Q x)) as [HQ|HQ].
  - by apply sublist_skip.
  - by apply Himp in HP.
  - by apply sublist_cons.
  - done.
Qed.

(** C1, with the side condition it needs: when every distance from
    [coord] to a record of the catalog is computed and is comparable with
    [radius] (in floats: neither is NaN), [nearby_schools] returns exactly
    the records within [radius] of [coord], in catalog order, and the
    empty list when there is none. *)
Theorem nearby_schools_within self coord (radius : F) :
  (∀ s, s ∈ schools self →
        ∃ d, distance coord (location s) = Ok d ∧ comparable d radius) →
  nearby_schools self coord radius
  = Ok (filter (λ s, within coord radius s) (schools self))
  ∧ ((∀ s, s ∈ schools self → within coord radius s = false) →
     nearby_schools self coord radius = Ok []).
Proof.
  intros Hcmp.
  assert (Hfilter : nearby_schools self coord radius
                    = Ok (filter (λ s, within coord radius s) (schools self))).
  { unfold nearby_schools. rewrite nearby_schools_loop_filter.
    assert (Hnone : first_failure coord (schools self) = None).
    { apply first_failure_None. intros s Hs.
      destruct (Hcmp s Hs) as (d & Hd & _). eauto. }
    rewrite Hnone. simpl. f_equal. apply filter_ext_in. intros s Hs.
    destruct (Hcmp s Hs) as (d & Hd & Hdr).
    unfold not_beyond, within. rewrite Hd. unfold comparable in Hdr.
    rewrite Hdr. by destruct (fle d radius). }
  split; [done|]. intros Hnone. rewrite Hfilter. f_equal.
  apply filter_none. intros s Hs. rewrite (Hnone s Hs). by intros [].
Qed.

(** Without any assumption: the query fails with the first distance that
    fails, and otherwise keeps the records whose distance is not greater
    than the radius. *)
Lemma nearby_schools_not_beyond self coord (radius : F) :
  nearby_schools self coord radius
  = match first_failure coord (schools self) with
    | Some e => Raise e
    | None => Ok (filter (λ s, not_beyond coord radius s) (schools self))
    end.
Proof. unfold nearby_schools. by rewrite nearby_schools_loop_filter. Qed.

(** Whatever the comparisons do on NaN: a record within the radius is
    returned, and a returned record is not beyond the radius. *)
Lemma nearby_schools_bounds `{!FloatOrder F} self coord (radius : F) near :
  nearby_schools self coord radius = Ok near →
  ∀ s, s ∈ schools self →
       (within coord radius s → s ∈ near)
       ∧ (s ∈ near → not_beyond coord radius s).
Proof.
  rewrite nearby_schools_not_beyond.
  destruct (first_failure coord (schools self)); [done|].
  intros [= <-] s Hs. split.
  - intros Hin. apply list_elem_of_filter. split; [|done].
    unfold within, not_beyond in *.
    destruct (distance coord (location s)) as [d|e]; [|done].
    apply Is_true_true in Hin. by rewrite (fle_not_fgt d radius Hin).
  - by intros [Hkeep _]%list_elem_of_filter.
Qed.

(** C7: for radii [r1 <= r2] the two queries fail alike or both return,
    and then the result for [r1] is a sub-list of the result for [r2]:
    every record of the former appears in the latter. *)
Theorem nearby_schools_monotone `{!FloatOrder F} self coord (r1 r2 : F) :
  fle r1 r2 = true →
  match nearby_schools self coord r1, nearby_schools self coord r2 with
  | Ok near1, Ok near2 =>
      near1 `sublist_of` near2 ∧ ∀ s, s ∈ near1 → s ∈ near2
  | Raise e1, Raise e2 => e1 = e2
  | _, _ => False
  end.
Proof.
  intros Hle. rewrite !nearby_schools_not_beyond.
  destruct (first_failure coord (schools self)); [done|].
  assert (Hsub : filter (λ s, not_beyond coord r1 s) (schools self)
                 `sublist_of`
                 filter (λ s, not_beyond coord r2 s) (schools self)).
  { apply filter_sublist_mono. intros s. unfold not_beyond.
    destruct (distance coord (location s)) as [d|e]; [|done].
    destruct (fgt d r2) eqn:Hgt; [|done].
    by rewrite (fgt_fle_trans d r1 r2 Hle Hgt). }
  split; [done|]. by apply sublist_subseteq.
Qed.

(** C3: [get_schools_by_grade] returns exactly the records that offer
    every grade of [G], in catalog order; only the set of grades in [G]
    matters; and with no grade it returns the whole catalog. *)
Theorem get_schools_by_grade_superset self (G : list string) :
  get_schools_by_grade self G
  = filter (λ s, Forall (λ g, g ∈ grades s) G) (schools self)
  ∧ (∀ G' : list string,
       (list_to_set G : gset string) = list_to_set G' →
       get_schools_by_grade self G = get_schools_by_grade self G')
  ∧ get_schools_by_grade self [] = schools self.
Proof.
  assert (Hfilter : ∀ G0, get_schools_by_grade self G0
            = filter (λ s, Forall (λ g, g ∈ grades s) G0) (schools self)).
  { intros G0. unfold get_schools_by_grade.
    by rewrite input_grades_copy, get_schools_by_grade_loop_filter. }
  split; [apply Hfilter|]. split.
  - intros G' Hset. rewrite !Hfilter. apply list_filter_iff. intros s.
    rewrite !Forall_forall. split; intros Hall g Hg; apply Hall.
    + apply (elem_of_list_to_set (C := gset string)). rewrite Hset.
      by apply elem_of_list_to_set.
    + apply (elem_of_list_to_set (C := gset string)). rewrite <- Hset.
      by apply elem_of_list_to_set.
  - rewrite Hfilter. clear Hfilter.
    induction (schools self) as [|s l IH]; [done|].
    rewrite filter_cons_True by constructor. by rewrite IH.
Qed.

(** C4: [get_schools_by_network] returns exactly the records whose
    network is the string [n] itself, in catalog order, and the empty
    list when there is none. *)
Theorem get_schools_by_network_exact self (n : string) :
  get_schools_by_network self n
  = filter (λ s, network s = n) (schools self)
  ∧ ((∀ s, s ∈ schools self → network s ≠ n) →
     get_schools_by_network self n = []).
Proof.
  assert (Hfilter : get_schools_by_network self n
                    = filter (λ s, network s = n) (schools self)).
  { unfold get_schools_by_network.
    by rewrite get_schools_by_network_loop_filter. }
  split; [done|]. intros Hnone. rewrite Hfilter. by apply filter_none.
Qed.

(** C9: [School.distance] computes what [Coordinate.distance] computes
    from the school's location, in every arithmetic: the same value, or
    the same exception. *)
Theorem School_distance_location s coord :
  School_distance s coord = distance (location s) coord.
Proof. unfold School_distance, distance. reflexivity. Qed.

(** C5: over one file system, the constructor returns the same outcome
    for any two [filename] arguments, because what it opens is the file
    named [schools.csv], whatever the argument. *)
Theorem CPS_init_ignores_filename (fs : files) (f1 f2 : string) :
  CPS_init fs f1 = CPS_init fs f2
  ∧ CPS_init fs f1
    = match fs "schools.csv" with
      | Some rows => CPS_init_rows rows
      | None => Raise FileNotFoundError
      end.
Proof. unfold CPS_init. split; reflexivity. Qed.

(** Two file systems that agree on [schools.csv] cannot be told apart by
    the constructor, whatever else they hold. *)
Lemma CPS_init_only_schools_csv (fs1 fs2 : files) (f1 f2 : string) :
  fs1 "schools.csv" = fs2 "schools.csv" → CPS_init fs1 f1 = CPS_init fs2 f2.
Proof. unfold CPS_init. by intros ->. Qed.

End QueryClaims.

(** ** The distance in exact real arithmetic *)

Module ExactDistance.

Import Haversine.
Local Open Scope R_scope.

Lemma sin_half_sqr (x : R) : (sin (x / 2))² = (1 - cos x) / 2.
Proof.
  replace x with (2 * (x / 2)) at 2 by lra.
  rewrite cos_2a_sin. unfold Rsqr. lra.
Qed.

Lemma sin_half_sqr_range (x : R) : 0 <= (sin (x / 2))² <= 1.
Proof.
  rewrite sin_half_sqr. pose proof (COS_bound x) as [? ?]. lra.
Qed.

Lemma hav_range (a b : Coordinate R) : 0 <= hav a b <= 1.
Proof.
  unfold hav.
  pose proof (sin_half_sqr_range (longitude a - longitude b)) as Hlon.
  rewrite (sin_half_sqr (latitude a - latitude b)), cos_minus.
  pose proof (sin2_cos2 (latitude a)) as Ha.
  pose proof (sin2_cos2 (latitude b)) as Hb.
  unfold Rsqr in Ha, Hb.
  set (k := (sin ((longitude a - longitude b) / 2))²) in *.
  set (ca := cos (latitude a)) in *. set (sa := sin (latitude a)) in *.
  set (cb := cos (latitude b)) in *. set (sb := sin (latitude b)) in *.
  pose proof (Rle_0_sqr (ca - cb)) as Hcm.
  pose proof (Rle_0_sqr (ca + cb)) as Hcp.
  pose proof (Rle_0_sqr (sa - sb)) as Hsm.
  pose proof (Rle_0_sqr (sa + sb)) as Hsp.
  unfold Rsqr in Hcm, Hcp, Hsm, Hsp.
  assert (H0 : 0 <= (1 - (ca * cb + sa * sb)) / 2 <= 1) by lra.
  assert (H1 : 0 <= (1 - (sa * sb - ca * cb)) / 2 <= 1) by lra.
  replace ((1 - (ca * cb + sa * sb)) / 2 + ca * cb * k)
    with ((1 - k) * ((1 - (ca * cb + sa * sb)) / 2)
          + k * ((1 - (sa * sb - ca * cb)) / 2)) by lra.
  split; nra.
Qed.

Lemma sqrt_unit (h : R) : 0 <= h <= 1 → 0 <= sqrt h <= 1.
Proof.
  intros [H0 H1]. split; [apply sqrt_pos|].
  rewrite <- sqrt_1. by apply sqrt_le_1_alt.
Qed.

Lemma asin_unit (x : R) : 0 <= x <= 1 → 0 <= asin x <= PI / 2.
Proof.
  intros [H0 H1]. split; [|apply asin_bound].
  destruct (Rle_dec 0 (asin x)) as [|Hneg]; [done|exfalso].
  apply Rnot_le_lt in Hneg.
  pose proof (asin_bound x) as [Hlo _]. pose proof PI_RGT_0.
  assert (sin (asin x) < 0) by (apply sin_lt_0_var; lra).
  rewrite sin_asin in *; lra.
Qed.

(** Every call in [Coordinate.distance] stays inside its domain. *)
Lemma distance_value (a b : Coordinate R) :
  distance (py := Ideal.exact) a b
  = Ok (IZR (2 * EARTH_RADIUS) * asin (sqrt (hav a b))).
Proof.
  pose proof (sqrt_unit _ (hav_range a b)) as [Hq0 Hq1].
  pose proof (hav_range a b) as [Hh0 Hh1].
  unfold distance, hav in *; simpl.
  unfold Ideal.sqrt, Ideal.asin, Ideal.pow, Rsqr in *; simpl.
  rewrite !Rmult_1_r.
  destruct (Rlt_dec _ 0) as [Hneg|_]; [lra|]. simpl.
  destruct (Rle_dec (-1) _) as [_|Hlo]; [|lra].
  destruct (Rle_dec _ 1) as [_|Hhi]; [done|lra].
Qed.

(** C2: in exact arithmetic [a.distance(b)] is the haversine expression
    in the two points, with [R = 3961]. *)
Theorem distance_haversine (a b : Coordinate R) :
  distance (py := Ideal.exact) a b = Ok (haversine a b)
  ∧ IZR EARTH_RADIUS = 3961.
Proof.
  split; [|done]. rewrite distance_value. unfold haversine, hav.
  f_equal. (* IZR (2 * 3961) unfolds to 2 * 3961 *)
Qed.

(** C10: for all real coordinates the argument of the square root lies
    in [[0, 1]], its root lies in the domain of the arc sine, so no call
    fails, and the distance lies in [[0, pi * 3961]]. *)
Theorem distance_safe (a b : Coordinate R) :
  0 <= hav a b <= 1
  ∧ math_sqrt (Python := Ideal.exact) (hav a b) = Ok (sqrt (hav a b))
  ∧ math_asin (Python := Ideal.exact) (sqrt (hav a b))
    = Ok (asin (sqrt (hav a b)))
  ∧ ∃ d, distance (py := Ideal.exact) a b = Ok d ∧ 0 <= d <= PI * 3961.
Proof.
  pose proof (hav_range a b) as Hh.
  pose proof (sqrt_unit _ Hh) as Hq.
  pose proof (asin_unit _ Hq) as Ha.
  split; [done|]. split; [|split].
  - simpl. unfold Ideal.sqrt. destruct (Rlt_dec _ 0); [lra|done].
  - simpl. unfold Ideal.asin.
    destruct (Rle_dec (-1) _); [|lra]. destruct (Rle_dec _ 1); [done|lra].
  - eexists. split; [apply distance_value|].
    change (IZR (2 * EARTH_RADIUS)) with 7922. split; lra.
Qed.

(** The distance does not depend on the direction it is taken in. *)
Lemma hav_sym (a b : Coordinate R) : hav a b = hav b a.
Proof.
  unfold hav.
  rewrite !sin_half_sqr.
  replace (latitude b - latitude a) with (- (latitude a - latitude b)) by lra.
  replace (longitude b - longitude a) with (- (longitude a - longitude b))
    by lra.
  rewrite !cos_neg. lra.
Qed.

Lemma distance_sym (a b : Coordinate R) :
  distance (py := Ideal.exact) a b = distance (py := Ideal.exact) b a.
Proof. by rewrite !distance_value, hav_sym. Qed.

(** In exact arithmetic [nearby_schools] is the filter "distance to the
    point at most the radius", with no side condition. *)
Lemma nearby_schools_exact (self : CPS R) (coord : Coordinate R) (radius : R) :
  nearby_schools (py := Ideal.exact) self coord radius
  = Ok (filter (λ s, haversine (location s) coord <= radius) (schools self)).
Proof.
  rewrite nearby_schools_not_beyond.
  assert (Hnone : first_failure (py := Ideal.exact) coord (schools self)
                  = None).
  { apply first_failure_None. intros s _. eexists. apply distance_value. }
  rewrite Hnone. f_equal. apply list_filter_iff. intros s.
  assert (Hd : distance (py := Ideal.exact) coord (location s)
               = Ok (haversine (location s) coord))
    by (by rewrite distance_sym, distance_value).
  unfold not_beyond. rewrite Hd.
  change (fgt (haversine (location s) coord) radius)
    with (Ideal.gt (haversine (location s) coord) radius).
  unfold Ideal.gt. destruct (Rgt_dec _ radius); simpl; split; try done; lra.
Qed.

End ExactDistance.

Module RoundTrip.

Import Rounding.
Local Open Scope R_scope.

Lemma underflow_small : 0 < underflow <= unit_roundoff.
Proof.
  unfold underflow, unit_roundoff. split.
  - apply Rinv_0_lt_compat, pow_lt; lra.
  - apply Rinv_le_contravar; [apply pow_lt; lra|].
    apply Rle_pow; [lra|lia].
Qed.

Lemma Rabs_le_inv (x b : R) : Rabs x <= b → - b <= x <= b.
Proof. unfold Rabs. destruct (Rcase_abs x); lra. Qed.

Lemma thousand_below_overflow : 1000 <= 2 ^ 1023.
Proof.
  apply Rle_trans with (2 ^ 10); [lra|]. apply Rle_pow; [lra|lia].
Qed.

Section Model.

Variable rnd : R -> R.
Hypothesis rnd_model : standard_model rnd.

(** One rounding of a value of magnitude at most 1000. *)
Lemma rnd_close (x : R) :
  Rabs x <= 1000 → Rabs (rnd x - x) <= / 10 ^ 12.
Proof.
  intros Hx. eapply Rle_trans.
  - apply rnd_model. pose proof thousand_below_overflow. lra.
  - pose proof underflow_small as [_ Hu]. unfold unit_roundoff in *.
    assert (0 < / 2 ^ 53) by (apply Rinv_0_lt_compat; lra).
    apply Rle_trans with (/ 2 ^ 53 * 1000 + / 2 ^ 53); [nra|lra].
Qed.

Variable pi_f : R.
Hypothesis pi_range : 3 <= pi_f <= 4.

(** One coordinate through [degree_to_radian] and back through the
    conversion of [as_degrees]. *)
Lemma degree_round_trip (deg : R) :
  - 180 <= deg <= 180 →
  let rad := degree_to_radian (py := Ideal.python rnd pi_f) deg in
  Rabs (rnd (rnd (rad * 180) / pi_f) - deg) <= tolerance.
Proof.
  intros Hdeg. unfold degree_to_radian; simpl.
  set (ip := / pi_f).
  assert (Hip : / 4 <= ip <= / 3 ∧ pi_f * ip = 1).
  { unfold ip. split; [split|].
    - apply Rinv_le_contravar; lra.
    - apply Rinv_le_contravar; lra.
    - apply Rinv_r; lra. }
  destruct Hip as [Hip Hinv].
  set (x1 := deg * pi_f).
  assert (Hx1 : - 720 <= x1 <= 720) by (unfold x1; nra).
  set (t1 := rnd x1).
  assert (He1 : Rabs (t1 - x1) <= / 10 ^ 12)
    by (apply rnd_close, Rabs_le; lra).
  apply Rabs_le_inv in He1.
  set (x2 := t1 / 180).
  assert (Hx2 : - 5 <= x2 <= 5) by (unfold x2; lra).
  set (rad := rnd x2).
  assert (He2 : Rabs (rad - x2) <= / 10 ^ 12)
    by (apply rnd_close, Rabs_le; lra).
  apply Rabs_le_inv in He2.
  set (x3 := rad * 180).
  assert (Hx3 : - 901 <= x3 <= 901) by (unfold x3; lra).
  set (t2 := rnd x3).
  assert (He3 : Rabs (t2 - x3) <= / 10 ^ 12)
    by (apply rnd_close, Rabs_le; lra).
  apply Rabs_le_inv in He3.
  set (x4 := t2 / pi_f).
  assert (Hx4 : x4 = deg + (t2 - x1) * ip)
    by (unfold x4, x1, Rdiv; fold ip; nra).
  assert (Hdrift : - (183 * / 10 ^ 12) <= t2 - x1 <= 183 * / 10 ^ 12)
    by (unfold x3, x2 in *; lra).
  assert (Hx4' : - (61 * / 10 ^ 12) <= x4 - deg <= 61 * / 10 ^ 12)
    by (rewrite Hx4; nra).
  assert (He4 : Rabs (rnd x4 - x4) <= / 10 ^ 12)
    by (apply rnd_close, Rabs_le; lra).
  apply Rabs_le_inv in He4.
  unfold tolerance. apply Rabs_le. lra.
Qed.

End Model.

(** C8: for degrees in the valid ranges, [as_degrees] of [fromdegrees]
    returns each component to within [1e-9], in every arithmetic that
    rounds as the standard model says, for any value of [math.pi]
    between 3 and 4. *)
Theorem as_degrees_fromdegrees (rnd : R -> R) (pi_f lat lon : R) :
  standard_model rnd → 3 <= pi_f <= 4 →
  - 90 <= lat <= 90 → - 180 <= lon <= 180 →
  let py := Ideal.python rnd pi_f in
  let back := as_degrees (py := py) (fromdegrees (py := py) lat lon) in
  Rabs (back.1 - lat) <= tolerance ∧ Rabs (back.2 - lon) <= tolerance.
Proof.
  intros Hrnd Hpi Hlat Hlon. split.
  - apply (degree_round_trip rnd Hrnd pi_f Hpi lat). lra.
  - apply (degree_round_trip rnd Hrnd pi_f Hpi lon). lra.
Qed.

Lemma as_degrees_fromdegrees_unrounded :
  standard_model (λ x, x) ∧ 3 <= pi64 <= 4
  ∧ - 90 <= 418781 / 10000 <= 90 ∧ - 180 <= - 876298 / 10000 <= 180
  ∧ let py := Ideal.python (λ x, x) pi64 in
    let back :=
      as_degrees (py := py)
        (fromdegrees (py := py) (418781 / 10000) (- 876298 / 10000)) in
    Rabs (back.1 - 418781 / 10000) <= tolerance
    ∧ Rabs (back.2 - - 876298 / 10000) <= tolerance.
Proof.
  assert (Hrnd : standard_model (λ x, x)).
  { intros x _. replace (x - x) with 0 by lra. rewrite Rabs_R0.
    pose proof (Rabs_pos x). pose proof underflow_small as [Hu0 Hu1].
    assert (0 <= unit_roundoff * Rabs x) by (apply Rmult_le_pos; lra). lra. }
  assert (Hpi : 3 <= pi64 <= 4) by (unfold pi64; lra).
  assert (Hlat : - 90 <= 418781 / 10000 <= 90) by lra.
  assert (Hlon : - 180 <= - 876298 / 10000 <= 180) by lra.
  split; [exact Hrnd|]. split; [exact Hpi|].
  split; [exact Hlat|]. split; [exact Hlon|].
  exact (as_degrees_fromdegrees (λ x, x) pi64 _ _ Hrnd Hpi Hlat Hlon).
Defined.

(** With no rounding the round trip is exact. *)
Lemma as_degrees_fromdegrees_exact (lat lon : R) :
  as_degrees (py := Ideal.exact) (fromdegrees (py := Ideal.exact) lat lon)
  = (lat, lon).
Proof.
  unfold as_degrees, fromdegrees, degree_to_radian; simpl.
  pose proof PI_RGT_0. f_equal; field; lra.
Qed.

End RoundTrip.

(** ** Loading the catalog *)

Section Loading.

Context {F : Type} {py : Python F}.

Lemma School_init_unparseable (data : gmap string string) :
  unparseable data → ∃ e, School_init data = Raise e.
Proof.
  intros Hbad. destruct (School_init data) as [s|e] eqn:Hinit; [|eauto].
  exfalso. unfold School_init, getitem, parsed in Hinit.
  destruct Hbad as [(v & Hv & Hp) | [(v & Hv & Hp) | (v & Hv & Hp)]];
    rewrite ?Hv in Hinit; simpl in Hinit; rewrite ?Hp in Hinit;
    simpl in Hinit; try done;
    repeat (case_match; simpl in *; try done; simplify_eq).
Qed.

Lemma School_init_complete (data : gmap string string) (e : exn) :
  complete data → School_init data = Raise e → e = ValueError.
Proof.
  unfold complete, required, School_init, getitem, parsed.
  rewrite !Forall_cons.
  intros ([v_id ->] & [? ->] & [? ->] & [? ->] & [? ->] & [? ->] & [? ->]
          & [v_lat ->] & [v_long ->] & _); simpl.
  destruct (py_int v_id); simpl; [|by intros [= <-]].
  destruct (py_float v_lat); simpl; [|by intros [= <-]].
  destruct (py_float v_long); simpl; [done|by intros [= <-]].
Qed.

Lemma CPS_init_loop_unparseable header lines acc :
  Exists (λ line, unparseable (row header line)) lines →
  ∃ e, CPS_init_loop header lines acc = Raise e.
Proof.
  intros Hbad. revert acc.
  induction Hbad as [line lines Hline|line lines _ IH]; intros acc; simpl.
  - destruct (School_init_unparseable _ Hline) as [e He].
    fold (row header line). rewrite He. eauto.
  - fold (row header line).
    destruct (School_init (row header line)) as [s|e]; simpl; eauto.
Qed.

Lemma CPS_init_loop_complete header lines acc e :
  Forall (λ line, complete (row header line)) lines →
  CPS_init_loop header lines acc = Raise e → e = ValueError.
Proof.
  intros Hall. revert acc.
  induction Hall as [|line lines Hline _ IH]; intros acc; simpl; [done|].
  fold (row header line).
  destruct (School_init (row header line)) as [s|e'] eqn:Hinit; simpl.
  - apply IH.
  - intros [= <-]. by eapply School_init_complete.
Qed.

Lemma School_init_ValueError (data : gmap string string) :
  School_init data = Raise ValueError ↔ parse_fails_first data.
Proof.
  unfold School_init, getitem, parsed, parse_fails_first, present.
  rewrite !Forall_cons, Forall_nil. unfold is_Some.
  destruct (data !! "School_ID") as [v_id|]; simpl;
    [|split; [done|intros [(?&?&_)|[[[[] _] _]|[[[] _] _]]]; done]].
  destruct (py_int v_id) as [i|] eqn:Hi; simpl; [|split; eauto].
  destruct (data !! "Short_Name"); simpl;
    [|split; [done|intros [(?&?&?)|[[(_&[]&_) _]|[(_&[]&_) _]]];
                     congruence]].
  destruct (data !! "Network"); simpl;
    [|split; [done|intros [(?&?&?)|[[(_&_&[]&_) _]|[(_&_&[]&_) _]]];
                     congruence]].
  destruct (data !! "Address"); simpl;
    [|split; [done|intros [(?&?&?)|[[(_&_&_&[]&_) _]|[(_&_&_&[]&_) _]]];
                     congruence]].
  destruct (data !! "Zip"); simpl;
    [|split; [done|intros [(?&?&?)|[[(_&_&_&_&[]&_) _]
                                     |[(_&_&_&_&[]&_) _]]];
                     congruence]].
  destruct (data !! "Phone"); simpl;
    [|split; [done|intros [(?&?&?)|[[(_&_&_&_&_&[]&_) _]
                                     |[(_&_&_&_&_&[]&_) _]]];
                     congruence]].
  destruct (data !! "Grades"); simpl;
    [|split; [done|intros [(?&?&?)|[[(_&_&_&_&_&_&[]&_) _]
                                     |[(_&_&_&_&_&_&[]&_) _]]];
                     congruence]].
  destruct (data !! "Lat") as [v_lat|]; simpl;
    [|split; [done|intros [(?&?&?)|[[_ (?&?&_)]
                                     |[(_&_&_&_&_&_&_&[]&_) _]]];
                     congruence]].
  destruct (py_float v_lat) as [lat|] eqn:Hla; simpl;
    [|split; [intros _; right; left; split; [repeat split|]; eauto|done]].
  destruct (data !! "Long") as [v_long|]; simpl;
    [|split; [done|intros [(?&?&?)|[[_ (?&?&?)]|[_ (?&?&_)]]];
                     congruence]].
  destruct (py_float v_long) as [long|] eqn:Hlo; simpl.
  - split; [done|]. intros [(?&?&?)|[[_ (?&?&?)]|[_ (?&?&?)]]]; congruence.
  - split; [intros _; right; right; split; [repeat split|]; eauto|done].
Qed.

Lemma CPS_init_loop_Raise header lines acc e :
  CPS_init_loop header lines acc = Raise e ↔
  ∃ before bad rest,
    lines = before ++ bad :: rest
    ∧ Forall (λ line, builds (row header line)) before
    ∧ School_init (row header bad) = Raise e.
Proof.
  revert acc. induction lines as [|line lines IH]; intros acc; simpl.
  - split; [done|]. intros (before & bad & rest & Heq & _).
    by destruct before.
  - fold (row header line).
    destruct (School_init (row header line)) as [s|e'] eqn:Hinit; simpl.
    + rewrite IH. split.
      * intros (before & bad & rest & -> & Hall & Hbad).
        exists (line :: before), bad, rest.
        repeat split; [|done]. constructor; [by exists s|done].
      * intros ([|line' before] & bad & rest & Heq & Hall & Hbad);
          simpl in Heq; injection Heq as <- ->; [congruence|].
        exists before, bad, rest. repeat split; [|done].
        by apply Forall_cons in Hall as [_ Hall].
    + split.
      * intros [= <-]. exists [], line, lines. by repeat split.
      * intros ([|line' before] & bad & rest & Heq & Hall & Hbad);
          simpl in Heq; injection Heq as <- ->; [congruence|].
        apply Forall_cons in Hall as [[s Hs] _]. congruence.
Qed.

(** C6, with the side condition it needs: if some data row has an
    identifier, latitude or longitude that does not parse, the constructor
    raises and yields no catalog; and what it raises is the parse error
    exactly when, reading the rows in file order and each row's columns in
    the constructor's order, a number that does not parse is met before
    any missing column: the rows before it build their schools, and in
    its own row no column read before it is missing. *)
Theorem CPS_init_all_or_nothing (header : list string)
    (lines : list (list string)) :
  Exists (λ line, unparseable (row header line)) lines →
  (∃ e, CPS_init_rows (header :: lines) = Raise e)
  ∧ (CPS_init_rows (header :: lines) = Raise ValueError ↔
     ∃ before bad rest,
       lines = before ++ bad :: rest
       ∧ Forall (λ line, builds (row header line)) before
       ∧ parse_fails_first (row header bad)).
Proof.
  intros Hbad. unfold CPS_init_rows.
  destruct (CPS_init_loop_unparseable header lines [] Hbad) as [e He].
  split; [rewrite He; simpl; eauto|].
  assert (Hraise : ∀ e', (schools ← CPS_init_loop header lines [];
                           Ok (mkCPS schools)) = Raise e'
                         ↔ CPS_init_loop header lines [] = Raise e')
    by (intros e'; rewrite He; simpl; split; intros [= <-]; reflexivity).
  rewrite Hraise, CPS_init_loop_Raise.
  split; intros (before & bad & rest & Heq & Hall & Hfail);
    exists before, bad, rest; repeat split; try done;
    by apply School_init_ValueError.
Qed.

End Loading.

(** ** The claims at concrete inputs *)

Module Checks.

Import Sample.
Import PrimFloat.

(** The example of the specification: both schools are within a mile of
    the point, only the first teaches [K], only the second is in [N2]. *)
Example load_sample :
  CPS_init_rows (py := py) [header; row1; row2] = Ok cps.
Proof. vm_compute. reflexivity. Qed.

Example nearby_sample :
  nearby_schools (py := py) cps point 1%float = Ok [school1; school2]
  ∧ nearby_schools (py := py) cps point 0.1%float = Ok [school2].
Proof. split; vm_compute; reflexivity. Qed.

Example grade_sample : get_schools_by_grade cps ["K"] = [school1].
Proof. vm_compute. reflexivity. Qed.

Example network_sample :
  get_schools_by_network cps "N2" = [school2]
  ∧ get_schools_by_network cps "n2" = []
  ∧ get_schools_by_network cps "N" = [].
Proof. repeat split; vm_compute; reflexivity. Qed.

Example address_sample :
  full_address school1
  = "1 W Main St " +:+ String "010" "Chicago, IL " +:+ String "010" "60601".
Proof. reflexivity. Qed.

(** The round trip of the sample point is not the identity on floats:
    the latitude comes back one unit in the last place lower. *)
Example round_trip_sample :
  point = fromdegrees (py := py) 0x1.4f06594af4f0ep+5%float
            (-0x1.5e84ea4a8c155p+6)%float
  ∧ as_degrees (py := py) point
    = (0x1.4f06594af4f0dp+5, -0x1.5e84ea4a8c155p+6)%float.
Proof. split; vm_compute; reflexivity. Qed.

(** [Rounding.pi64] is the value of the float [math.pi]. *)
Example pi64_is_math_pi :
  Prim2SF Binary64.pi = S754_finite false 7074237752028440 (-51)
  ∧ (7074237752028440 / 2 ^ 51 = Rounding.pi64)%R.
Proof. split; [vm_compute; reflexivity|unfold Rounding.pi64; lra]. Qed.

(** On floats the round trip stays within [1e-9] at the ends of the
    valid ranges, at zero and at the smallest positive float. *)
Example round_trip_extremes :
  forallb
    (λ deg,
       let back := as_degrees (py := py) (fromdegrees (py := py) deg deg) in
       (abs (back.1 - deg) <=? 1e-9)%float)
    [90; -90; 180; -180; 0; 0x1p-1074; 41.8781; -87.6298;
     179.99999999999997]%float
  = true.
Proof. vm_compute. reflexivity. Qed.

(** A school whose latitude reads [nan] is reported near every point. *)
Example nan_school :
  ∃ s, CPS_init_rows (py := py)
         [header; ["3"; "C"; "N3"; ""; ""; ""; ""; "nan"; "0"]]
       = Ok (mkCPS [s])
       ∧ distance (py := py) point (location s) = Ok nan
       ∧ nearby_schools (py := py) (mkCPS [s]) point 0%float = Ok [s].
Proof. eexists. repeat split; vm_compute; reflexivity. Qed.

(** C1 fails at the radius NaN: no distance is at most NaN, yet both
    schools are returned. *)
Lemma nearby_schools_nan_radius :
  nearby_schools (py := py) cps point nan = Ok [school1; school2]
  ∧ filter (λ s, within (py := py) point nan s) (schools cps) = [].
Proof. split; vm_compute; reflexivity. Qed.

Lemma nearby_schools_within_sample :
  (∀ s, s ∈ schools cps →
        ∃ d, distance (py := py) point (location s) = Ok d
             ∧ comparable (py := py) d 1%float)
  ∧ nearby_schools (py := py) cps point 1%float
    = Ok (filter (λ s, within (py := py) point 1%float s) (schools cps)).
Proof.
  assert (Hcmp : ∀ s, s ∈ schools cps →
            ∃ d, distance (py := py) point (location s) = Ok d
                 ∧ comparable (py := py) d 1%float).
  { intros s Hs. apply elem_of_cons in Hs as [->|Hs].
    - eexists. split; vm_compute; reflexivity.
    - apply list_elem_of_singleton in Hs as ->.
      eexists. split; vm_compute; reflexivity. }
  split; [exact Hcmp|].
  exact (proj1 (nearby_schools_within (py := py) cps point 1%float Hcmp)).
Defined.

Lemma nearby_schools_monotone_sample :
  fle (Python := py) 0.1%float 1%float = true
  ∧ match nearby_schools (py := py) cps point 0.1%float,
          nearby_schools (py := py) cps point 1%float with
    | Ok near1, Ok near2 =>
        near1 `sublist_of` near2 ∧ ∀ s, s ∈ near1 → s ∈ near2
    | Raise e1, Raise e2 => e1 = e2
    | _, _ => False
    end.
Proof.
  split; [reflexivity|].
  apply (nearby_schools_monotone (py := py)
           (FloatOrder0 := Binary64Order.binary64_order Binary64.portable)).
  reflexivity.
Defined.

(** A blank line before the row with the bad latitude: the constructor
    fails on the blank line, with a [KeyError]. *)
Lemma CPS_init_blank_line :
  Exists (λ line, unparseable (py := py) (row header line)) [[]; bad_row]
  ∧ CPS_init_rows (py := py) [header; []; bad_row]
    = Raise (KeyError "School_ID").
Proof.
  split; [|vm_compute; reflexivity].
  apply Exists_cons_tl, Exists_cons_hd. right; left. exists "abc".
  split; vm_compute; reflexivity.
Qed.

Lemma CPS_init_all_or_nothing_sample :
  Exists (λ line, unparseable (py := py) (row header line))
    [row1; bad_row; []]
  ∧ Forall (λ line, builds (py := py) (row header line)) [row1]
  ∧ parse_fails_first (py := py) (row header bad_row)
  ∧ CPS_init_rows (py := py) [header; row1; bad_row; []] = Raise ValueError.
Proof.
  assert (Hbad : Exists (λ line, unparseable (py := py) (row header line))
                   [row1; bad_row; []]).
  { apply Exists_cons_tl, Exists_cons_hd. right; left. exists "abc".
    split; vm_compute; reflexivity. }
  assert (Hbuilds : Forall (λ line, builds (py := py) (row header line))
                      [row1]).
  { repeat constructor. exists school1. vm_compute. reflexivity. }
  assert (Hfirst : parse_fails_first (py := py) (row header bad_row)).
  { right; left. split.
    - repeat constructor; eexists; vm_compute; reflexivity.
    - exists "abc". split; vm_compute; reflexivity. }
  split; [exact Hbad|]. split; [exact Hbuilds|]. split; [exact Hfirst|].
  apply (proj2 (CPS_init_all_or_nothing (py := py) header
                  [row1; bad_row; []] Hbad)).
  exists [row1], bad_row, [[]]. by repeat split.
Defined.

(** C2 fails on floats: for the points at 15 and 165 degrees of
    latitude, half a turn of longitude apart, the rounded argument of the
    square root falls below zero and [Coordinate.distance] raises. *)
Lemma distance_raises_on_floats :
  distance (py := py) (fromdegrees (py := py) 15%float 0%float)
    (fromdegrees (py := py) 165%float 180%float)
  = Raise ValueError.
Proof. vm_compute. reflexivity. Qed.

(** The constructor asked for [other.csv] still loads [schools.csv]. *)
Example other_file_ignored :
  let fs : files := λ f,
    if String.eqb f "schools.csv" then Some [header; row1; row2]
    else if String.eqb f "other.csv" then Some [header; row2]
    else None in
  CPS_init (py := py) fs "other.csv" = Ok cps.
Proof. vm_compute. reflexivity. Qed.

End Checks.


(** * Further properties of the program *)

(** ** Splitting the grades field *)

Module SplitFacts.

Import Str.

Lemma append_String (c : ascii) (a b : string) :
  String c a +:+ b = String c (a +:+ b).
Proof. reflexivity. Qed.

Lemma append_empty_r (s : string) : s +:+ "" = s.
Proof.
  induction s as [|c s IH]; [done|]. by rewrite append_String, IH.
Qed.

Lemma append_assoc (a b c : string) : (a +:+ b) +:+ c = a +:+ (b +:+ c).
Proof.
  induction a as [|x a IH]; [done|]. by rewrite !append_String, IH.
Qed.

Lemma split_cons (s cur : string) :
  ∃ p rest, split_comma_space s cur = p :: rest.
Proof.
  revert cur. induction s as [|c s IH]; intros cur; simpl; [eauto|].
  destruct s as [|c' s']; [eauto|].
  destruct (Ascii.eqb c "," && Ascii.eqb c' " "); [eauto|]. apply IH.
Qed.

Lemma join_cons (sep p q : string) (rest : list string) :
  join sep (p :: q :: rest) = p +:+ sep +:+ join sep (q :: rest).
Proof. reflexivity. Qed.

(** Joining what is split gives back the piece being read followed by
    the text still to read; stated for [s] and for [s] behind one more
    character, as the scan looks two characters ahead. *)
Lemma join_split_both (s : string) :
  (∀ cur, join ", " (split_comma_space s cur) = cur +:+ s)
  ∧ (∀ c cur, join ", " (split_comma_space (String c s) cur)
              = cur +:+ String c s).
Proof.
  induction s as [|d s [IH1 IH2]].
  - split; intros; simpl; [by rewrite append_empty_r|done].
  - split; [intros cur; apply IH2|]. intros c cur.
    change (split_comma_space (String c (String d s)) cur)
      with (if (Ascii.eqb c "," && Ascii.eqb d " ")%bool
            then cur :: split_comma_space s ""
            else split_comma_space (String d s) (cur +:+ String c "")).
    destruct (Ascii.eqb c "," && Ascii.eqb d " ")%bool eqn:Hsep.
    + apply andb_prop in Hsep as [->%Ascii.eqb_eq ->%Ascii.eqb_eq].
      destruct (split_cons s "") as (p & rest & Hsplit).
      rewrite Hsplit, join_cons, <- Hsplit, IH1. done.
    + rewrite IH2, append_assoc. done.
Qed.

(** X1: [", ".join(s.split(", ")) == s]. *)
Theorem join_split_comma_space (s : string) :
  join ", " (split_comma_space s "") = s.
Proof. by destruct (join_split_both s) as [-> _]. Qed.

Lemma has_comma_space_snoc (x : string) (c : ascii) :
  has_comma_space (x +:+ String c "")
  = has_comma_space x || (ends_with_comma x && Ascii.eqb c " ").
Proof.
  induction x as [|a x IH]; [done|].
  destruct x as [|b x].
  { change (String a "" +:+ String c "") with (String a (String c "")).
    cbn. by destruct (Ascii.eqb a ","), (Ascii.eqb c " "). }
  rewrite !append_String in *.
  change (has_comma_space (String a (String b (x +:+ String c ""))))
    with ((Ascii.eqb a "," && Ascii.eqb b " ")
          || has_comma_space (String b (x +:+ String c ""))).
  rewrite IH. cbn. by rewrite orb_assoc.
Qed.

Lemma ends_with_comma_snoc (x : string) (c : ascii) :
  ends_with_comma (x +:+ String c "") = Ascii.eqb c ",".
Proof.
  induction x as [|a x IH]; [done|].
  destruct x as [|b x]; [done|]. rewrite !append_String in *. exact IH.
Qed.

Lemma scanning_step (cur s : string) (c : ascii) :
  scanning cur (String c s) →
  Ascii.eqb c "," && starts_with_space s = false →
  scanning (cur +:+ String c "") s.
Proof.
  intros [Hcur Hend] Hsep. split.
  - by rewrite has_comma_space_snoc, Hcur.
  - by rewrite ends_with_comma_snoc.
Qed.

Lemma split_pieces_both (s : string) :
  (∀ cur, scanning cur s →
          Forall (λ p, has_comma_space p = false) (split_comma_space s cur))
  ∧ (∀ c cur, scanning cur (String c s) →
              Forall (λ p, has_comma_space p = false)
                (split_comma_space (String c s) cur)).
Proof.
  induction s as [|d s [IH1 IH2]].
  - split.
    + intros cur [Hcur _]. by repeat constructor.
    + intros c cur [Hcur Hend]. repeat constructor.
      by rewrite has_comma_space_snoc, Hcur.
  - split; [intros cur; apply IH2|]. intros c cur Hscan.
    change (split_comma_space (String c (String d s)) cur)
      with (if (Ascii.eqb c "," && Ascii.eqb d " ")%bool
            then cur :: split_comma_space s ""
            else split_comma_space (String d s) (cur +:+ String c "")).
    destruct (Ascii.eqb c "," && Ascii.eqb d " ")%bool eqn:Hsep.
    + constructor; [apply Hscan|]. by apply IH1.
    + by apply IH2, scanning_step.
Qed.

(** X2: [s.split(", ")] is never empty, and none of its pieces holds the
    separator. *)
Theorem split_comma_space_pieces (s : string) :
  split_comma_space s "" ≠ []
  ∧ Forall (λ p, has_comma_space p = false) (split_comma_space s "").
Proof.
  split.
  - by destruct (split_cons s "") as (p & rest & ->).
  - by apply (proj1 (split_pieces_both s)).
Qed.

(** The same, for use below. *)
Lemma split_no_separator (s p : string) :
  p ∈ split_comma_space s "" → has_comma_space p = false.
Proof.
  intros Hp.
  pose proof (proj1 (split_pieces_both s) "" (conj eq_refl eq_refl)) as Hall.
  by apply (proj1 (Forall_forall _ _) Hall).
Qed.

End SplitFacts.

(** ** Rows as dicts *)

Module RowFacts.

Lemma dict_from_None (d : gmap string string)
    (pairs : list (string * string)) (k : string) :
  foldl (λ d kv, <[kv.1 := kv.2]> d) d pairs !! k = None
  ↔ d !! k = None ∧ k ∉ pairs.*1.
Proof.
  revert d. induction pairs as [|[k' v'] pairs IH]; intros d; simpl.
  - split; [intros Hd; split; [done|apply not_elem_of_nil]|by intros [? _]].
  - rewrite IH, lookup_insert_None, not_elem_of_cons. intuition congruence.
Qed.

Lemma dict_from_other (d : gmap string string)
    (pairs : list (string * string)) (k : string) :
  k ∉ pairs.*1 → foldl (λ d kv, <[kv.1 := kv.2]> d) d pairs !! k = d !! k.
Proof.
  revert d. induction pairs as [|[k' v'] pairs IH]; intros d Hk; [done|].
  simpl in *. apply not_elem_of_cons in Hk as [Hne Hk].
  by rewrite IH, lookup_insert_ne.
Qed.

Lemma dict_last (before after : list (string * string)) (k v : string) :
  k ∉ after.*1 → dict (before ++ (k, v) :: after) !! k = Some v.
Proof.
  intros Hk. unfold dict. rewrite foldl_app. simpl.
  by rewrite dict_from_other, lookup_insert_eq.
Qed.

Lemma zip_keys (header line : list string) :
  (zip_with pair header line).*1 = take (length line) header.
Proof.
  revert line. induction header as [|h header IH]; intros [|x line];
    simpl; try done.
  by rewrite IH.
Qed.

Lemma row_None (header line : list string) (k : string) :
  row header line !! k = None ↔ k ∉ take (length line) header.
Proof.
  unfold row, dict. rewrite dict_from_None, zip_keys, lookup_empty.
  tauto.
Qed.

(** X3: a row lacks a column exactly when the header does not name it
    among the first [len(line)] columns: a short line drops the trailing
    columns, and fields beyond the header are dropped. *)
Theorem row_missing_column (header line : list string) (k : string) :
  row header line !! k = None ↔ k ∉ take (length line) header.
Proof. apply row_None. Qed.

(** X4: a column's value in the row is the field under its last
    occurrence in the header (among the columns the line reaches). *)
Theorem row_last_column (header line : list string) (i : nat) (k v : string) :
  header !! i = Some k → line !! i = Some v →
  (∀ j, (i < j)%nat → (j < length line)%nat → header !! j ≠ Some k) →
  row header line !! k = Some v.
Proof.
  intros Hk Hv Hlast. unfold row.
  rewrite <- (take_drop_middle header i k Hk).
  rewrite <- (take_drop_middle line i v Hv).
  rewrite zip_with_app
    by (rewrite !length_take; apply lookup_lt_Some in Hk, Hv; lia).
  simpl. apply dict_last. rewrite zip_keys.
  intros Hin. apply list_elem_of_lookup in Hin as [j Hj].
  apply lookup_take_Some in Hj as [Hj Hlt].
  rewrite lookup_drop in Hj. rewrite length_drop in Hlt.
  apply (Hlast (S i + j)%nat); [lia|lia|done].
Qed.

End RowFacts.

(** ** The two constructors *)

Section ConstructorFacts.

Context {F : Type} {py : Python F}.

Implicit Types (data : gmap string string) (s : School F).

(** What a successful [School.__init__] read. *)
Lemma School_init_Ok data s :
  School_init data = Ok s ↔
  ∃ v_id v_grades v_lat v_long lat long,
    data !! "School_ID" = Some v_id ∧ py_int v_id = Some (id s)
    ∧ data !! "Short_Name" = Some (name s)
    ∧ data !! "Network" = Some (network s)
    ∧ data !! "Address" = Some (address s)
    ∧ data !! "Zip" = Some (zip s)
    ∧ data !! "Phone" = Some (phone s)
    ∧ data !! "Grades" = Some v_grades
    ∧ grades s = split_comma_space v_grades ""
    ∧ data !! "Lat" = Some v_lat ∧ py_float v_lat = Some lat
    ∧ data !! "Long" = Some v_long ∧ py_float v_long = Some long
    ∧ location s = fromdegrees lat long.
Proof.
  unfold School_init, getitem, parsed. split.
  - intros Hinit.
    destruct (data !! "School_ID") as [v_id|]; simpl in Hinit; [|done].
    destruct (py_int v_id) as [i|] eqn:Hi; simpl in Hinit; [|done].
    destruct (data !! "Short_Name") as [n|]; simpl in Hinit; [|done].
    destruct (data !! "Network") as [nw|]; simpl in Hinit; [|done].
    destruct (data !! "Address") as [a|]; simpl in Hinit; [|done].
    destruct (data !! "Zip") as [z|]; simpl in Hinit; [|done].
    destruct (data !! "Phone") as [ph|]; simpl in Hinit; [|done].
    destruct (data !! "Grades") as [v_grades|]; simpl in Hinit; [|done].
    destruct (data !! "Lat") as [v_lat|]; simpl in Hinit; [|done].
    destruct (py_float v_lat) as [lat|] eqn:Hla; simpl in Hinit; [|done].
    destruct (data !! "Long") as [v_long|]; simpl in Hinit; [|done].
    destruct (py_float v_long) as [long|] eqn:Hlo; simpl in Hinit; [|done].
    injection Hinit as <-. simpl.
    exists v_id, v_grades, v_lat, v_long, lat, long. by repeat split.
  - intros (v_id & v_grades & v_lat & v_long & lat & long & -> & Hid & ->
            & -> & -> & -> & -> & -> & Hgr & -> & Hlat & -> & Hlong & Hloc).
    simpl. rewrite Hid. simpl. rewrite Hlat. simpl. rewrite Hlong. simpl.
    destruct s; simpl in *. by subst.
Qed.

(** X5: [School.__init__] returns a school exactly for the rows that have
    all nine columns and whose identifier, latitude and longitude
    parse. *)
Theorem School_init_succeeds data :
  is_Ok (School_init data) ↔ complete data ∧ ¬ unparseable data.
Proof.
  split.
  - intros [s Hinit]. split.
    + apply School_init_Ok in Hinit
        as (v_id & v_grades & v_lat & v_long & lat & long & ? & ? & ? & ?
            & ? & ? & ? & ? & ? & ? & ? & ? & ? & ?).
      unfold complete, required. repeat constructor; eauto.
    + intros [e He]%School_init_unparseable. congruence.
  - intros [Hall Hparse]. unfold is_Ok, School_init, getitem, parsed.
    unfold complete, required in Hall. rewrite !Forall_cons in Hall.
    destruct Hall as ([v_id Hid] & [? ->] & [? ->] & [? ->] & [? ->] & [? ->]
                      & [? ->] & [v_lat Hlat] & [v_long Hlong] & _).
    rewrite Hid, Hlat, Hlong. simpl.
    destruct (py_int v_id) as [i|] eqn:Hi; simpl;
      [|exfalso; apply Hparse; left; eauto].
    destruct (py_float v_lat) as [lat|] eqn:Hla; simpl;
      [|exfalso; apply Hparse; right; left; eauto].
    destruct (py_float v_long) as [long|] eqn:Hlo; simpl;
      [eauto|exfalso; apply Hparse; right; right; eauto].
Qed.

(** X6: the only exceptions of [School.__init__] are the [KeyError] of a
    column the row lacks and the [ValueError] of a number that does not
    parse. *)
Theorem School_init_exceptions data (e : exn) :
  School_init data = Raise e →
  (∃ k, e = KeyError k ∧ k ∈ required ∧ data !! k = None)
  ∨ (e = ValueError ∧ unparseable data).
Proof.
  unfold School_init, getitem, parsed, required, unparseable.
  destruct (data !! "School_ID") as [v_id|] eqn:Hid; simpl;
    [|intros [= <-]; left; eexists; repeat split; [set_solver|done]].
  destruct (py_int v_id) as [i|] eqn:Hi; simpl;
    [|intros [= <-]; right; split; [done|left; eauto]].
  destruct (data !! "Short_Name") eqn:?; simpl;
    [|intros [= <-]; left; eexists; repeat split; [set_solver|done]].
  destruct (data !! "Network") eqn:?; simpl;
    [|intros [= <-]; left; eexists; repeat split; [set_solver|done]].
  destruct (data !! "Address") eqn:?; simpl;
    [|intros [= <-]; left; eexists; repeat split; [set_solver|done]].
  destruct (data !! "Zip") eqn:?; simpl;
    [|intros [= <-]; left; eexists; repeat split; [set_solver|done]].
  destruct (data !! "Phone") eqn:?; simpl;
    [|intros [= <-]; left; eexists; repeat split; [set_solver|done]].
  destruct (data !! "Grades") eqn:?; simpl;
    [|intros [= <-]; left; eexists; repeat split; [set_solver|done]].
  destruct (data !! "Lat") as [v_lat|] eqn:Hlat; simpl;
    [|intros [= <-]; left; eexists; repeat split; [set_solver|done]].
  destruct (py_float v_lat) as [lat|] eqn:Hla; simpl;
    [|intros [= <-]; right; split; [done|right; left; eauto]].
  destruct (data !! "Long") as [v_long|] eqn:Hlong; simpl;
    [|intros [= <-]; left; eexists; repeat split; [set_solver|done]].
  destruct (py_float v_long) as [long|] eqn:Hlo; simpl;
    [done|intros [= <-]; right; split; [done|right; right; eauto]].
Qed.

End ConstructorFacts.

Section CatalogFacts.

Context {F : Type} {py : Python F}.

Implicit Types (header : list string) (lines : list (list string)).

Lemma CPS_init_loop_Ok header lines (acc out : list (School F)) :
  CPS_init_loop header lines acc = Ok out ↔
  ∃ new, out = acc ++ new
         ∧ Forall2 (λ line s, School_init (row header line) = Ok s) lines new.
Proof.
  revert acc. induction lines as [|line lines IH]; intros acc; simpl.
  - split.
    + intros [= <-]. exists []. by rewrite app_nil_r.
    + intros (new & -> & ->%Forall2_nil_inv_l). by rewrite app_nil_r.
  - fold (row header line).
    destruct (School_init (row header line)) as [s|e] eqn:Hinit; simpl.
    + rewrite IH. split.
      * intros (new & -> & Hall). exists (s :: new).
        rewrite <- app_assoc. split; [done|by constructor].
      * intros (new & -> & Hall).
        apply Forall2_cons_inv_l in Hall as (s' & new' & Hs' & Hall & ->).
        exists new'. rewrite <- app_assoc. simpl. split; [congruence|done].
    + split; [done|]. intros (new & _ & Hall).
      apply Forall2_cons_inv_l in Hall as (s' & new' & Hs' & _). congruence.
Qed.

(** X7: [CPS.__init__] returns a catalog exactly when every data line
    builds a school, and then the catalog holds those schools, one per
    line, in file order (none for a file with only a header). *)
Theorem CPS_init_file_order header lines (self : CPS F) :
  CPS_init_rows (header :: lines) = Ok self ↔
  Forall2 (λ line s, School_init (row header line) = Ok s)
    lines (schools self).
Proof.
  unfold CPS_init_rows. split.
  - destruct (CPS_init_loop header lines []) as [out|e] eqn:Hloop;
      simpl; [|done].
    intros [= <-]. simpl.
    by apply CPS_init_loop_Ok in Hloop as (new & -> & Hall).
  - intros Hall.
    assert (Hloop : CPS_init_loop header lines [] = Ok (schools self))
      by (apply CPS_init_loop_Ok; eauto).
    rewrite Hloop. simpl. by destruct self.
Qed.

Lemma CPS_init_loop_first_failure header (good rest : list (list string))
    (bad : list string) (e : exn) (acc : list (School F)) :
  Forall (λ line, is_Ok (School_init (row header line))) good →
  School_init (row header bad) = Raise e →
  CPS_init_loop header (good ++ bad :: rest) acc = Raise e.
Proof.
  intros Hgood Hbad. revert acc.
  induction Hgood as [|line good [s Hs] _ IH]; intros acc; simpl.
  - fold (row header bad). by rewrite Hbad.
  - fold (row header line). rewrite Hs. simpl. apply IH.
Qed.

(** X8: [CPS.__init__] raises the exception of the first data line that
    fails to build a school, whatever the lines after it hold. *)
Theorem CPS_init_first_failure header (good rest : list (list string))
    (bad : list string) (e : exn) :
  Forall (λ line, is_Ok (School_init (row header line))) good →
  School_init (row header bad) = Raise e →
  CPS_init_rows (header :: good ++ bad :: rest) = Raise e.
Proof.
  intros Hgood Hbad. unfold CPS_init_rows.
  by rewrite (CPS_init_loop_first_failure _ _ _ _ _ _ Hgood Hbad).
Qed.

(** X9: with a header that does not name the [School_ID] column, any file
    with a data line fails with [KeyError] on that column, whatever the
    lines hold. *)
Theorem CPS_init_no_id_column header (line : list string) lines :
  "School_ID" ∉ header →
  CPS_init_rows (header :: line :: lines) = Raise (KeyError "School_ID").
Proof.
  intros Hid. unfold CPS_init_rows. simpl. fold (row header line).
  assert (Hrow : row header line !! "School_ID" = None).
  { apply RowFacts.row_None. intros Hin. apply Hid.
    by apply (subseteq_take (length line) header). }
  unfold School_init, getitem. by rewrite Hrow.
Qed.

(** X10: no school of a loaded catalog has a grade that holds the
    separator, so asking for such a grade returns nothing. *)
Theorem get_schools_by_grade_separator (rows : list (list string))
    (self : CPS F) (G : list string) (g : string) :
  CPS_init_rows rows = Ok self →
  g ∈ G → Str.has_comma_space g = true →
  get_schools_by_grade self G = [].
Proof.
  intros Hload Hg Hsep. destruct rows as [|header lines]; [done|].
  unfold CPS_init_rows in Hload.
  destruct (CPS_init_loop header lines []) as [out|e] eqn:Hloop;
    simpl in Hload; [|done].
  injection Hload as <-.
  apply CPS_init_loop_Ok in Hloop as (new & -> & Hall).
  unfold get_schools_by_grade.
  rewrite input_grades_copy, get_schools_by_grade_loop_filter. simpl.
  apply filter_none. intros s Hs Hoffers.
  apply (proj1 (Forall_forall _ _) Hoffers) in Hg.
  apply list_elem_of_lookup in Hs as [i Hi].
  destruct (Forall2_lookup_r _ _ _ _ _ Hall Hi) as (line & _ & Hinit).
  apply School_init_Ok in Hinit
    as (v_id & v_grades & v_lat & v_long & lat & long & ? & ? & ? & ? & ?
        & ? & ? & ? & Hgrades & ?).
  rewrite Hgrades in Hg.
  apply SplitFacts.split_no_separator in Hg. congruence.
Qed.

End CatalogFacts.

(** ** Composing the queries *)

Section QueryFacts.

Context {F : Type} {py : Python F}.

Implicit Types (self : CPS F) (s : School F) (coord : Coordinate F).

Lemma by_grade_filter self (G : list string) :
  get_schools_by_grade self G
  = filter (λ s, Forall (λ g, g ∈ grades s) G) (schools self).
Proof.
  unfold get_schools_by_grade.
  by rewrite input_grades_copy, get_schools_by_grade_loop_filter.
Qed.

Lemma by_network_filter self (n : string) :
  get_schools_by_network self n = filter (λ s, network s = n) (schools self).
Proof.
  unfold get_schools_by_network.
  by rewrite get_schools_by_network_loop_filter.
Qed.

(** X11: asking for the grades [G1] and [G2] together is asking for [G2]
    among the schools that teach [G1]. *)
Theorem get_schools_by_grade_app self (G1 G2 : list string) :
  get_schools_by_grade self (G1 ++ G2)
  = get_schools_by_grade (mkCPS (get_schools_by_grade self G1)) G2.
Proof.
  rewrite !by_grade_filter. simpl.
  rewrite list_filter_filter. apply list_filter_iff. intros s.
  rewrite Forall_app. tauto.
Qed.

(** X12: filtering by grades and by network commute. *)
Theorem grade_network_commute self (G : list string) (n : string) :
  get_schools_by_network (mkCPS (get_schools_by_grade self G)) n
  = get_schools_by_grade (mkCPS (get_schools_by_network self n)) G.
Proof.
  rewrite !by_network_filter, !by_grade_filter. simpl.
  rewrite !list_filter_filter.
  apply list_filter_iff. intros s. tauto.
Qed.

(** X13: the schools of one network hold none of another: filtering the
    result for [n] by [m] gives it back when [m] is [n], and nothing
    otherwise. *)
Theorem get_schools_by_network_twice self (n m : string) :
  get_schools_by_network (mkCPS (get_schools_by_network self n)) m
  = if decide (n = m) then get_schools_by_network self n else [].
Proof.
  rewrite !by_network_filter. simpl. rewrite list_filter_filter.
  destruct (decide (n = m)) as [<-|Hne].
  - apply list_filter_iff. intros s. tauto.
  - apply filter_none. intros s _ [Hm Hn]. congruence.
Qed.

(** X14: asking for more grades never adds a school: the result for [G']
    is a sub-list of the result for any [G] within [G']. *)
Theorem get_schools_by_grade_antitone self (G G' : list string) :
  G ⊆ G' →
  get_schools_by_grade self G' `sublist_of` get_schools_by_grade self G.
Proof.
  intros Hsub. rewrite !by_grade_filter. apply filter_sublist_mono.
  intros s. rewrite !Forall_forall. auto.
Qed.

(** X15: what [nearby_schools] returns is a sub-list of the catalog: it
    holds no other school, none twice, and none out of order. *)
Theorem nearby_schools_sublist self coord (radius : F)
    (near : list (School F)) :
  nearby_schools self coord radius = Ok near →
  near `sublist_of` schools self.
Proof.
  rewrite nearby_schools_not_beyond.
  destruct (first_failure coord (schools self)); [done|].
  intros [= <-]. apply sublist_filter.
Qed.

(** X16: whether [nearby_schools] raises, and what, does not depend on the
    radius. *)
Theorem nearby_schools_failure_any_radius self coord (r1 r2 : F) (e : exn) :
  nearby_schools self coord r1 = Raise e ↔
  nearby_schools self coord r2 = Raise e.
Proof.
  rewrite !nearby_schools_not_beyond.
  by destruct (first_failure coord (schools self)).
Qed.

Lemma first_failure_sublist coord (l1 l2 : list (School F)) :
  l1 `sublist_of` l2 →
  first_failure coord l2 = None → first_failure coord l1 = None.
Proof.
  rewrite !first_failure_None. intros Hsub Hall s Hs. apply Hall.
  by apply (sublist_subseteq _ _ Hsub).
Qed.

(** X17: narrowing a result narrows the catalog: for [r1 <= r2], the
    schools within [r1] among those returned for [r2] are the schools
    within [r1] of the whole catalog. *)
Theorem nearby_schools_narrow `{!FloatOrder F} self coord (r1 r2 : F)
    (near2 : list (School F)) :
  fle r1 r2 = true →
  nearby_schools self coord r2 = Ok near2 →
  nearby_schools (mkCPS near2) coord r1 = nearby_schools self coord r1.
Proof.
  intros Hle. rewrite !nearby_schools_not_beyond. simpl.
  destruct (first_failure coord (schools self)) eqn:Hfail; [done|].
  intros [= <-].
  rewrite (first_failure_sublist coord _ _ (sublist_filter _ _) Hfail).
  f_equal. rewrite list_filter_filter. apply list_filter_iff. intros s.
  split; [tauto|]. intros Hnear. split; [done|].
  unfold not_beyond in *.
  destruct (distance coord (location s)) as [d|]; [|done].
  destruct (fgt d r2) eqn:Hgt; [|done].
  by rewrite (fgt_fle_trans d r1 r2 Hle Hgt) in Hnear.
Qed.

(** X18: when the query succeeds on the whole catalog, filtering by
    network before it or after it gives the same schools. *)
Theorem nearby_network_commute self coord (radius : F) (n : string)
    (near : list (School F)) :
  nearby_schools self coord radius = Ok near →
  nearby_schools (mkCPS (get_schools_by_network self n)) coord radius
  = Ok (get_schools_by_network (mkCPS near) n).
Proof.
  rewrite !nearby_schools_not_beyond, !by_network_filter. simpl.
  destruct (first_failure coord (schools self)) eqn:Hfail; [done|].
  intros [= <-].
  rewrite (first_failure_sublist coord _ _ (sublist_filter _ _) Hfail).
  f_equal. rewrite !list_filter_filter. apply list_filter_iff.
  intros s. tauto.
Qed.

End QueryFacts.

(** ** More on the distance in exact real arithmetic *)

Module ExactFacts.

Import Haversine.
Local Open Scope R_scope.

(** X19: in exact arithmetic the distance does not depend on the direction
    it is taken in. *)
Theorem distance_symmetric (a b : Coordinate R) :
  distance (py := Ideal.exact) a b = distance (py := Ideal.exact) b a.
Proof.
  by rewrite !ExactDistance.distance_value, ExactDistance.hav_sym.
Qed.

(** X20: in exact arithmetic the distance a school computes to a point is
    the distance [nearby_schools] computes from the point to the
    school. *)
Theorem School_distance_nearby (s : School R) (coord : Coordinate R) :
  School_distance (py := Ideal.exact) s coord
  = distance (py := Ideal.exact) coord (location s).
Proof.
  change (School_distance (py := Ideal.exact) s coord)
    with (distance (py := Ideal.exact) (location s) coord).
  by rewrite !ExactDistance.distance_value, ExactDistance.hav_sym.
Qed.

Lemma hav_same (a : Coordinate R) : hav a a = 0.
Proof.
  unfold hav. rewrite !Rminus_diag.
  replace (0 / 2) with 0 by lra. rewrite sin_0. unfold Rsqr. lra.
Qed.

(** X21: in exact arithmetic the distance from a point to itself is
    zero. *)
Theorem distance_same (a : Coordinate R) :
  distance (py := Ideal.exact) a a = Ok 0.
Proof.
  rewrite ExactDistance.distance_value, hav_same, sqrt_0, asin_0.
  f_equal. lra.
Qed.

Lemma sin_half_sqr_period (x : R) :
  (sin ((x + 2 * PI) / 2))² = (sin (x / 2))².
Proof.
  replace ((x + 2 * PI) / 2) with (x / 2 + PI) by lra.
  rewrite neg_sin. unfold Rsqr. lra.
Qed.

Lemma cos_turn (x : R) : cos (x + 2 * PI) = cos x.
Proof. rewrite cos_plus, cos_2PI, sin_2PI. lra. Qed.

(** X22: in exact arithmetic a full turn added to the latitude or to the
    longitude of a point changes no distance: the meridians 180 degrees
    east and west are one. *)
Theorem distance_full_turn (lat lon : R) (b : Coordinate R) :
  distance (py := Ideal.exact) (mkCoordinate lat (lon + 2 * PI)) b
  = distance (py := Ideal.exact) (mkCoordinate lat lon) b
  ∧ distance (py := Ideal.exact) (mkCoordinate (lat + 2 * PI) lon) b
    = distance (py := Ideal.exact) (mkCoordinate lat lon) b.
Proof.
  rewrite !ExactDistance.distance_value. unfold hav. simpl. split.
  - replace (lon + 2 * PI - longitude b)
      with (lon - longitude b + 2 * PI) by lra.
    by rewrite sin_half_sqr_period.
  - replace (lat + 2 * PI - latitude b)
      with (lat - latitude b + 2 * PI) by lra.
    by rewrite sin_half_sqr_period, cos_turn.
Qed.

Lemma asin_abs_sin (x : R) :
  - (PI / 2) <= x <= PI / 2 → asin (Rabs (sin x)) = Rabs x.
Proof.
  intros Hx. pose proof PI_RGT_0.
  destruct (Rle_dec 0 x) as [Hpos|Hneg].
  - rewrite (Rabs_pos_eq x) by done.
    rewrite Rabs_pos_eq by (apply sin_ge_0; lra).
    apply asin_sin. lra.
  - rewrite (Rabs_left x) by lra.
    rewrite <- Rabs_Ropp, <- sin_neg.
    rewrite Rabs_pos_eq by (apply sin_ge_0; lra).
    apply asin_sin. lra.
Qed.

(** X23: in exact arithmetic two points on one meridian, at most half a
    turn of latitude apart, are [3961] miles times their difference of
    latitude (in radians) apart. *)
Theorem distance_meridian (a b : Coordinate R) :
  longitude a = longitude b →
  Rabs (latitude a - latitude b) <= PI →
  distance (py := Ideal.exact) a b
  = Ok (3961 * Rabs (latitude a - latitude b)).
Proof.
  intros Hlon Hlat. rewrite ExactDistance.distance_value. unfold hav.
  rewrite Hlon, Rminus_diag. replace (0 / 2) with 0 by lra.
  rewrite sin_0. replace (0²) with 0 by (unfold Rsqr; lra).
  rewrite Rmult_0_r, Rplus_0_r, sqrt_Rsqr_abs.
  apply RoundTrip.Rabs_le_inv in Hlat.
  rewrite asin_abs_sin by lra.
  f_equal. change (IZR (2 * EARTH_RADIUS)) with 7922.
  replace ((latitude a - latitude b) / 2)
    with ((latitude a - latitude b) * / 2) by lra.
  rewrite Rabs_mult, (Rabs_pos_eq (/ 2)) by lra. lra.
Qed.

(** X24: in exact arithmetic [fromdegrees] maps valid degrees to valid
    radians: a latitude within a quarter turn of the equator, a
    longitude within half a turn. *)
Theorem fromdegrees_range (lat lon : R) :
  - 90 <= lat <= 90 → - 180 <= lon <= 180 →
  let c := fromdegrees (py := Ideal.exact) lat lon in
  - (PI / 2) <= latitude c <= PI / 2 ∧ - PI <= longitude c <= PI.
Proof.
  intros Hlat Hlon. simpl. unfold degree_to_radian. simpl.
  pose proof PI_RGT_0. split; split; nra.
Qed.

(** X25: in exact arithmetic [fromdegrees] undoes [as_degrees]. *)
Theorem fromdegrees_as_degrees (c : Coordinate R) :
  let degrees := as_degrees (py := Ideal.exact) c in
  fromdegrees (py := Ideal.exact) degrees.1 degrees.2 = c.
Proof.
  destruct c as [lat lon]. simpl. unfold fromdegrees, degree_to_radian.
  simpl. pose proof PI_RGT_0. f_equal; field; lra.
Qed.

Lemma haversine_nonneg (a b : Coordinate R) : 0 <= haversine a b.
Proof.
  pose proof (ExactDistance.asin_unit _
                (ExactDistance.sqrt_unit _ (ExactDistance.hav_range a b)))
    as [Hpos _].
  unfold haversine. fold (hav a b). nra.
Qed.

(** X26: in exact arithmetic a negative radius returns no school. *)
Theorem nearby_schools_negative_radius (self : CPS R) (coord : Coordinate R)
    (radius : R) :
  radius < 0 →
  nearby_schools (py := Ideal.exact) self coord radius = Ok [].
Proof.
  intros Hneg. rewrite ExactDistance.nearby_schools_exact. f_equal.
  apply filter_none. intros s _ Hnear.
  pose proof (haversine_nonneg (location s) coord). lra.
Qed.

End ExactFacts.

(** ** Binary64 floats: radii beyond every distance, and mirror images *)

Module FloatFacts.

Import PrimFloat.

Section AnyPlatform.

Variable p : Binary64.Platform.

Lemma keep_all (self : CPS float) (coord : Coordinate float) (radius : float) :
  (∀ d, fgt (Python := Binary64.python p) d radius = false) →
  nearby_schools (py := Binary64.python p) self coord radius
  = match first_failure (py := Binary64.python p) coord (schools self) with
    | Some e => Raise e
    | None => Ok (schools self)
    end.
Proof.
  intros Hall. rewrite nearby_schools_not_beyond.
  destruct (first_failure _ _) eqn:Hfail; [done|]. f_equal.
  pose proof (proj1 (first_failure_None _ _) Hfail) as Hok. clear Hfail.
  induction (schools self) as [|s l IH]; [done|].
  rewrite filter_cons_True, IH; [done| |].
  - intros s' Hs'. apply Hok. by right.
  - destruct (Hok s) as [d Hd]; [by left|].
    unfold not_beyond. by rewrite Hd, Hall.
Qed.

Lemma nothing_beyond_infinity (d : float) :
  fgt (Python := Binary64.python p) d infinity = false.
Proof.
  simpl. rewrite FloatAxioms.ltb_spec. unfold SFltb.
  change (Prim2SF infinity) with (S754_infinity false).
  by destruct (Prim2SF d) as [[]|[]| |[]].
Qed.

(** X27: on binary64 floats, on any platform, the radii [inf] and [nan]
    return the whole catalog, unless a distance fails. *)
Theorem nearby_schools_unbounded (self : CPS float)
    (coord : Coordinate float) :
  let whole :=
    match first_failure (py := Binary64.python p) coord (schools self) with
    | Some e => Raise e
    | None => Ok (schools self)
    end in
  nearby_schools (py := Binary64.python p) self coord infinity = whole
  ∧ nearby_schools (py := Binary64.python p) self coord nan = whole.
Proof.
  split; apply keep_all; intros d.
  - apply nothing_beyond_infinity.
  - apply Binary64Order.nan_radius.
Qed.

Lemma binary_round_aux_opp (s : bool) (m e : Z) (l : SpecFloat.location) :
  binary_round_aux prec emax (negb s) m e l
  = SFopp (binary_round_aux prec emax s m e l).
Proof.
  unfold binary_round_aux.
  destruct (shr_fexp prec emax m e l) as [mrs e'].
  destruct (shr_fexp prec emax _ e' loc_Exact) as [mrs' e''].
  destruct (shr_m mrs'); [done| |done].
  by destruct (e'' <=? emax - prec)%Z.
Qed.

Lemma SFmul_opp (x y : spec_float) :
  SFmul prec emax (SFopp x) y = SFopp (SFmul prec emax x y).
Proof.
  destruct x as [sx|sx| |sx mx ex], y as [sy|sy| |sy my ey]; simpl;
    try done; try (by destruct sx, sy).
  rewrite <- binary_round_aux_opp. by destruct sx, sy.
Qed.

Lemma SFdiv_opp (x y : spec_float) :
  SFdiv prec emax (SFopp x) y = SFopp (SFdiv prec emax x y).
Proof.
  destruct x as [sx|sx| |sx mx ex], y as [sy|sy| |sy my ey]; simpl;
    try done; try (by destruct sx, sy).
  destruct (SFdiv_core_binary prec emax (Z.pos mx) ex (Z.pos my) ey)
    as [[mz ez] lz].
  rewrite <- binary_round_aux_opp. by destruct sx, sy.
Qed.

Lemma mul_opp (x y : float) : (- x * y = - (x * y))%float.
Proof.
  apply Prim2SF_inj.
  rewrite mul_spec, !opp_spec, mul_spec. apply SFmul_opp.
Qed.

Lemma div_opp (x y : float) : (- x / y = - (x / y))%float.
Proof.
  apply Prim2SF_inj.
  rewrite div_spec, !opp_spec, div_spec. apply SFdiv_opp.
Qed.

(** X28: on binary64 floats the two conversions commute with negation, bit
    for bit: the mirror image of a point in degrees is the mirror image
    of the point in radians, and back. *)
Theorem conversions_mirror (lat lon : float) :
  (fromdegrees (py := Binary64.python p) (- lat) (- lon)
   = (let c := fromdegrees (py := Binary64.python p) lat lon in
      mkCoordinate (- latitude c) (- longitude c))
   ∧ as_degrees (py := Binary64.python p) (mkCoordinate (- lat) (- lon))
     = (let d := as_degrees (py := Binary64.python p)
                   (mkCoordinate lat lon) in
        (- d.1, - d.2)))%float.
Proof.
  unfold fromdegrees, as_degrees, degree_to_radian. simpl.
  by rewrite !mul_opp, !div_opp.
Qed.

End AnyPlatform.

End FloatFacts.

(** ** The address block *)

Module AddressFacts.

Import Str.

Lemma has_newline_cons (c : ascii) (s : string) :
  has_newline (String c s) = false →
  c ≠ "010"%char ∧ has_newline s = false.
Proof.
  simpl. intros [Hc Hs]%orb_false_elim. split; [|done].
  by apply Ascii.eqb_neq.
Qed.

Lemma space_newline_inj (a1 a2 r1 r2 : string) :
  has_newline a1 = false → has_newline a2 = false →
  a1 +:+ String " " (String "010" r1) = a2 +:+ String " " (String "010" r2) →
  a1 = a2 ∧ r1 = r2.
Proof.
  revert a2. induction a1 as [|c1 a1 IH]; intros [|c2 a2] H1 H2 Heq.
  - by injection Heq as ->.
  - exfalso. rewrite SplitFacts.append_String in Heq.
    injection Heq as _ Heq. apply has_newline_cons in H2 as [_ H2].
    destruct a2 as [|c a2]; [done|].
    rewrite SplitFacts.append_String in Heq. injection Heq as <- _.
    by apply has_newline_cons in H2 as [? _].
  - exfalso. rewrite SplitFacts.append_String in Heq.
    injection Heq as _ Heq. apply has_newline_cons in H1 as [_ H1].
    destruct a1 as [|c a1]; [done|].
    rewrite SplitFacts.append_String in Heq. injection Heq as -> _.
    by apply has_newline_cons in H1 as [? _].
  - rewrite !SplitFacts.append_String in Heq. injection Heq as -> Heq.
    apply has_newline_cons in H1 as [_ H1].
    apply has_newline_cons in H2 as [_ H2].
    by destruct (IH a2 H1 H2 Heq) as [-> ->].
Qed.

(** X29: the full address determines the street address and the postal
    code, for street addresses without a line feed. *)
Theorem full_address_inj {F : Type} (s1 s2 : School F) :
  has_newline (address s1) = false → has_newline (address s2) = false →
  full_address s1 = full_address s2 →
  address s1 = address s2 ∧ zip s1 = zip s2.
Proof.
  intros H1 H2 Heq. unfold full_address in Heq.
  destruct (space_newline_inj _ _ _ _ H1 H2 Heq) as [Ha Hz].
  split; [done|]. by simplify_eq.
Qed.

End AddressFacts.

(** ** The further properties at concrete inputs *)

Module MoreChecks.

Import Sample.
Import PrimFloat.
Local Open Scope float_scope.

Lemma School_init_exceptions_sample :
  School_init (py := py) (row header bad_row) = Raise ValueError
  ∧ ((∃ k, ValueError = KeyError k ∧ k ∈ required
           ∧ row header bad_row !! k = None)
     ∨ (ValueError = ValueError
        ∧ unparseable (py := py) (row header bad_row))).
Proof.
  assert (Hinit : School_init (py := py) (row header bad_row)
                  = Raise ValueError) by (vm_compute; reflexivity).
  split; [exact Hinit|].
  exact (School_init_exceptions (py := py) _ _ Hinit).
Defined.

Lemma CPS_init_first_failure_sample :
  Forall (λ line, is_Ok (School_init (py := py) (row header line))) [row1]
  ∧ School_init (py := py) (row header bad_row) = Raise ValueError
  ∧ CPS_init_rows (py := py) (header :: [row1] ++ bad_row :: [row2])
    = Raise ValueError.
Proof.
  assert (Hgood : Forall (λ line, is_Ok (School_init (py := py)
                                           (row header line))) [row1]).
  { repeat constructor. exists school1. vm_compute. reflexivity. }
  assert (Hbad : School_init (py := py) (row header bad_row)
                 = Raise ValueError) by (vm_compute; reflexivity).
  split; [exact Hgood|]. split; [exact Hbad|].
  exact (CPS_init_first_failure (py := py) header [row1] [row2] bad_row
           ValueError Hgood Hbad).
Defined.

Lemma CPS_init_no_id_column_sample :
  ("School_ID" ∉ tail header)
  ∧ CPS_init_rows (py := py) (tail header :: row1 :: [row2])
    = Raise (KeyError "School_ID").
Proof.
  assert (Hid : "School_ID" ∉ tail header).
  { intros Hin. vm_compute in Hin.
    repeat (apply elem_of_cons in Hin as [Heq|Hin]; [discriminate Heq|]).
    by apply elem_of_nil in Hin. }
  split; [exact Hid|].
  exact (CPS_init_no_id_column (py := py) (tail header) row1 [row2] Hid).
Defined.

Lemma get_schools_by_grade_separator_sample :
  CPS_init_rows (py := py) [header; row1; row2] = Ok cps
  ∧ "K, 1" ∈ ["K, 1"]
  ∧ Str.has_comma_space "K, 1" = true
  ∧ get_schools_by_grade cps ["K, 1"] = [].
Proof.
  assert (Hload : CPS_init_rows (py := py) [header; row1; row2] = Ok cps)
    by (vm_compute; reflexivity).
  assert (Hin : "K, 1" ∈ ["K, 1"]) by (by left).
  split; [exact Hload|]. split; [exact Hin|]. split; [reflexivity|].
  exact (get_schools_by_grade_separator (py := py) _ cps ["K, 1"] "K, 1"
           Hload Hin eq_refl).
Defined.

(** A header that names the column [A] twice: the later field wins. *)
Lemma row_last_column_sample :
  ["A"; "B"; "A"] !! 2%nat = Some "A"
  ∧ ["1"; "2"; "3"] !! 2%nat = Some "3"
  ∧ row ["A"; "B"; "A"] ["1"; "2"; "3"] !! "A" = Some "3".
Proof.
  split; [reflexivity|]. split; [reflexivity|].
  apply (RowFacts.row_last_column ["A"; "B"; "A"] ["1"; "2"; "3"] 2%nat
           "A" "3");
    [reflexivity|reflexivity|].
  intros j Hlo Hhi. simpl in Hhi. lia.
Defined.

Lemma get_schools_by_grade_antitone_sample :
  ["K"] ⊆ ["K"; "1"]
  ∧ get_schools_by_grade cps ["K"; "1"]
    `sublist_of` get_schools_by_grade cps ["K"].
Proof.
  assert (Hsub : ["K"] ⊆ ["K"; "1"]).
  { intros g ->%list_elem_of_singleton. by left. }
  split; [exact Hsub|].
  exact (get_schools_by_grade_antitone cps ["K"] ["K"; "1"] Hsub).
Defined.

Lemma nearby_schools_sublist_sample :
  nearby_schools (py := py) cps point 0.1 = Ok [school2]
  ∧ [school2] `sublist_of` schools cps.
Proof.
  assert (Hnear : nearby_schools (py := py) cps point 0.1 = Ok [school2])
    by (vm_compute; reflexivity).
  split; [exact Hnear|].
  exact (nearby_schools_sublist (py := py) cps point 0.1 [school2] Hnear).
Defined.

Lemma nearby_schools_narrow_sample :
  fle (Python := py) 0.1 1 = true
  ∧ nearby_schools (py := py) cps point 1 = Ok [school1; school2]
  ∧ nearby_schools (py := py) (mkCPS [school1; school2]) point 0.1
    = nearby_schools (py := py) cps point 0.1.
Proof.
  assert (Hnear : nearby_schools (py := py) cps point 1
                  = Ok [school1; school2]) by (vm_compute; reflexivity).
  split; [reflexivity|]. split; [exact Hnear|].
  exact (nearby_schools_narrow (py := py)
           (FloatOrder0 := Binary64Order.binary64_order Binary64.portable)
           cps point 0.1 1 [school1; school2] eq_refl Hnear).
Defined.

Lemma nearby_network_commute_sample :
  nearby_schools (py := py) cps point 1 = Ok [school1; school2]
  ∧ nearby_schools (py := py) (mkCPS (get_schools_by_network cps "N2"))
      point 1
    = Ok (get_schools_by_network (mkCPS [school1; school2]) "N2").
Proof.
  assert (Hnear : nearby_schools (py := py) cps point 1
                  = Ok [school1; school2]) by (vm_compute; reflexivity).
  split; [exact Hnear|].
  exact (nearby_network_commute (py := py) cps point 1 "N2"
           [school1; school2] Hnear).
Defined.

Lemma full_address_inj_sample :
  Str.has_newline (address school1) = false
  ∧ full_address school1 = full_address school1
  ∧ address school1 = address school1 ∧ zip school1 = zip school1.
Proof.
  split; [reflexivity|]. split; [reflexivity|].
  exact (AddressFacts.full_address_inj school1 school1 eq_refl eq_refl
           eq_refl).
Defined.

End MoreChecks.

Module MoreExactChecks.

Local Open Scope R_scope.

(** One radian of latitude along the prime meridian is [3961] miles. *)
Lemma distance_meridian_radian :
  longitude (mkCoordinate 1 0) = longitude (mkCoordinate 0 0)
  ∧ Rabs (latitude (mkCoordinate 1 0) - latitude (mkCoordinate 0 0)) <= PI
  ∧ distance (py := Ideal.exact) (mkCoordinate 1 0) (mkCoordinate 0 0)
    = Ok (3961 * Rabs (1 - 0)).
Proof.
  assert (Hlat : Rabs (latitude (mkCoordinate 1 0)
                       - latitude (mkCoordinate 0 0)) <= PI).
  { simpl. rewrite Rminus_0_r, Rabs_R1. pose proof PI2_1. lra. }
  split; [reflexivity|]. split; [exact Hlat|].
  exact (ExactFacts.distance_meridian (mkCoordinate 1 0) (mkCoordinate 0 0)
           eq_refl Hlat).
Defined.

Lemma fromdegrees_range_sample :
  - 90 <= 45 <= 90 ∧ - 180 <= - 90 <= 180
  ∧ let c := fromdegrees (py := Ideal.exact) 45 (- 90) in
    - (PI / 2) <= latitude c <= PI / 2 ∧ - PI <= longitude c <= PI.
Proof.
  assert (Hlat : - 90 <= 45 <= 90) by lra.
  assert (Hlon : - 180 <= - 90 <= 180) by lra.
  split; [exact Hlat|]. split; [exact Hlon|].
  exact (ExactFacts.fromdegrees_range 45 (- 90) Hlat Hlon).
Defined.

Lemma nearby_schools_negative_radius_sample :
  - 1 < 0
  ∧ nearby_schools (py := Ideal.exact)
      (mkCPS [mkSchool 1 "A" "N1" "" "" "" ["K"] (mkCoordinate 0 0)])
      (mkCoordinate 0 0) (- 1)
    = Ok [].
Proof.
  assert (Hneg : - 1 < 0) by lra.
  split; [exact Hneg|].
  exact (ExactFacts.nearby_schools_negative_radius _ _ (- 1) Hneg).
Defined.

End MoreExactChecks.
